(** * Ekhaya Legae API: a shallow embedding of [main.py] and [schemas.py]

    The development follows the layout of the repository:
    - [Py]: the few Python values and control effects the handlers use
      (JSON-like values, dictionaries, exceptions, [try]/[except]);
    - [Pydantic]: field declarations and the validation of a request body
      against a model, with the conversions of the validation library and
      the e-mail syntax check as parameters;
    - [Schemas]: the eight models of [schemas.py];
    - [Database]: the document store adapter that [main.py] imports
      ([create_document], [get_documents], [db]);
    - [Main]: the route handlers of [main.py];
    - [Routes]: the handlers as the framework serves them (body
      validation, defaults of query parameters, status codes);
    - [Sample]: a runnable instance of the parameters and a small store;
    - [Spec]: the tables and conditions of the specification;
    - [Shapes]: the shapes of validated records and of answers, read off
      the declarations and the handlers;
    - the properties of the HTTP surface. *)

From Stdlib Require Import ZArith Ascii String List Bool Lia.
From stdpp Require Import base option list strings pretty gmap fin_maps.

Local Open Scope string_scope.
Local Open Scope Z_scope.

(* ===================================================================== *)
(** * Python values and effects                                           *)
(* ===================================================================== *)

Module Py.

(** Values that travel through the API: what [json.loads] produces for a
    request body, what a document holds, what a handler returns.  A number
    literal with a fraction or an exponent is kept as written
    ([JFloat m e] stands for [m * 10^e]); a Python [str] is held as the
    UTF-8 bytes of its characters. *)
#[local] Unset Elimination Schemes.
Inductive json : Type :=
  | JNull
  | JBool (b : bool)
  | JInt (n : Z)
  | JFloat (m e : Z)
  | JStr (s : string)
  | JArr (items : list json)
  | JObj (members : list (string * json)).
#[local] Set Elimination Schemes.

(** Structural equality, the [==] of two such values. *)
Fixpoint json_eqb (x y : json) {struct x} : bool :=
  match x, y with
  | JNull, JNull => true
  | JBool a, JBool b => Bool.eqb a b
  | JInt a, JInt b => Z.eqb a b
  | JFloat m e, JFloat m' e' => Z.eqb m m' && Z.eqb e e'
  | JStr a, JStr b => String.eqb a b
  | JArr xs, JArr ys =>
      (fix go (xs ys : list json) {struct xs} : bool :=
         match xs, ys with
         | [], [] => true
         | x :: xs, y :: ys => json_eqb x y && go xs ys
         | _, _ => false
         end) xs ys
  | JObj xs, JObj ys =>
      (fix go (xs ys : list (string * json)) {struct xs} : bool :=
         match xs, ys with
         | [], [] => true
         | (k, x) :: xs, (k', y) :: ys =>
             String.eqb k k' && json_eqb x y && go xs ys
         | _, _ => false
         end) xs ys
  | _, _ => false
  end.

(** Truthiness of a string: [if s:] holds for the non-empty ones. *)
Definition truthy_str (s : string) : bool :=
  match s with EmptyString => false | String _ _ => true end.

(** Truthiness of an optional string ([None] and the empty string are falsy). *)
Definition truthy (o : option string) : bool :=
  match o with None => false | Some s => truthy_str s end.

(** A byte that continues a character of a UTF-8 string ([10xxxxxx]);
    every other byte starts one. *)
Definition is_continuation (c : ascii) : bool :=
  let n := nat_of_ascii c in (Nat.leb 128 n && Nat.ltb n 192)%bool.

(** [len(s)]: the number of characters. *)
Fixpoint char_count (s : string) : nat :=
  match s with
  | EmptyString => O
  | String c r =>
      if is_continuation c then char_count r else S (char_count r)
  end.

(** [s[:n]]: the first [n] characters, each with all of its bytes. *)
Fixpoint str_prefix (n : nat) (s : string) : string :=
  match s with
  | EmptyString => EmptyString
  | String c r =>
      if is_continuation c then String c (str_prefix n r)
      else match n with
           | O => EmptyString
           | S k => String c (str_prefix k r)
           end
  end.

(** A string that is empty or begins at the first byte of a character. *)
Definition starts_character (s : string) : Prop :=
  match s with
  | EmptyString => True
  | String c _ => is_continuation c = false
  end.

(** [str.lower] on the ASCII letters. *)
Definition lower_ascii (c : ascii) : ascii :=
  let n := nat_of_ascii c in
  if (Nat.leb 65 n && Nat.leb n 90)%bool then ascii_of_nat (n + 32) else c.

Fixpoint lower (s : string) : string :=
  match s with
  | EmptyString => EmptyString
  | String c r => String (lower_ascii c) (lower r)
  end.

(** A dictionary with string keys, as a handler builds and returns it. *)
Abbreviation dict := (gmap string json).

(** First binding of a key among the members of an object. *)
Fixpoint assoc (k : string) (ms : list (string * json)) : option json :=
  match ms with
  | [] => None
  | (k', v) :: r => if String.eqb k k' then Some v else assoc k r
  end.

(** Exceptions.  [Exception] is any error with a message (the store's
    [StoreUnavailable] and [StoreError] are of this kind);
    [HTTPException] is the framework's, raised by the write handlers. *)
Inductive exn : Type :=
  | Exception (msg : string)
  | HTTPException (status_code : Z) (detail : string).

(** [str(e)]: the message, and for an [HTTPException] the status and the
    detail. *)
Definition str (e : exn) : string :=
  match e with
  | Exception msg => msg
  | HTTPException c d => pretty c ++ ": " ++ d
  end.

(** The outcome of a call: a value, or a raised exception. *)
Inductive outcome (A : Type) : Type :=
  | Return (a : A)
  | Raise (e : exn).
Arguments Return {A} a.
Arguments Raise {A} e.

Definition bind {A B} (m : outcome A) (k : A -> outcome B) : outcome B :=
  match m with
  | Return a => k a
  | Raise e => Raise e
  end.

(** [try: m  except Exception as e: h e] *)
Definition try_except {A} (m : outcome A) (h : exn -> outcome A) : outcome A :=
  match m with
  | Return a => Return a
  | Raise e => h e
  end.

End Py.
Import Py.

(* ===================================================================== *)
(** * The validation library, as far as the schemas use it                *)
(* ===================================================================== *)

Module Pydantic.

(** Type annotations that occur in [schemas.py]. *)
Inductive annotation : Type :=
  | Str | Int | Bool | Datetime | EmailStr
  | Optional (a : annotation)
  | List_ (a : annotation).

Definition type_name (a : annotation) : string :=
  match a with
  | Str => "str" | Int => "int" | Bool => "bool"
  | Datetime => "datetime.datetime"
  | EmailStr => "pydantic.networks.EmailStr"
  | _ => "object"
  end.

(** [str(field.annotation)] *)
Definition show_annotation (a : annotation) : string :=
  match a with
  | Optional b => "typing.Optional[" ++ type_name b ++ "]"
  | List_ b => "typing.List[" ++ type_name b ++ "]"
  | _ => "<class '" ++ type_name a ++ "'>"
  end.

(** A default is a value or the marker [PydanticUndefined]. *)
Inductive pyobj : Type :=
  | PydanticUndefined
  | Val (v : json).

(** What [Field(...)] records about a field.  [default_factory] holds the
    value the factory builds ([list] builds [[]]). *)
Record FieldInfo : Type := mkField {
  annotation_of : annotation;
  default : pyobj;
  default_factory : option json;
  description : option string;
  ge : option Z;
  le : option Z
}.

(** [field.is_required()] *)
Definition is_required (f : FieldInfo) : bool :=
  match default f, default_factory f with
  | PydanticUndefined, None => true
  | _, _ => false
  end.

(** The value a missing optional field takes. *)
Definition get_default (f : FieldInfo) : json :=
  match default_factory f, default f with
  | Some v, _ => v
  | None, Val v => v
  | None, PydanticUndefined => JNull
  end.

(** A model class: its name and its fields in declaration order. *)
Record BaseModel : Type := mkModel {
  __name__ : string;
  model_fields : list (string * FieldInfo)
}.

(** A validated instance: the value of every declared field, in
    declaration order (what [model_dump()] gives). *)
Abbreviation instance := (list (string * json)).

Inductive error_type : Type :=
  | missing
  | string_type
  | int_invalid
  | bool_invalid
  | datetime_invalid
  | email_invalid
  | greater_than_equal (bound : Z)
  | less_than_equal (bound : Z)
  | list_type
  | model_attributes_type.

(** One entry of a validation error: where, and what went wrong. *)
Record error : Type := mkError { loc : list string; type : error_type }.

(** The conversions the library applies to raw input in its default (lax)
    mode, and the syntax check of the e-mail validator behind [EmailStr]
    (it gives the normalised address).  They belong to the libraries, not
    to this repository; the development is parametric in them. *)
Class Lax : Type := {
  lax_int : json -> option Z;
  lax_bool : json -> option bool;
  lax_datetime : json -> option json;
  validate_email : string -> option string
}.

Section Validation.
Context `{!Lax}.

Definition check_bounds (f : FieldInfo) (n : Z) : error_type + json :=
  match ge f with
  | Some b => if n <? b then inl (greater_than_equal b) else
      match le f with
      | Some c => if c <? n then inl (less_than_equal c) else inr (JInt n)
      | None => inr (JInt n)
      end
  | None =>
      match le f with
      | Some c => if c <? n then inl (less_than_equal c) else inr (JInt n)
      | None => inr (JInt n)
      end
  end.

(** Validation of one present value against the annotation of its field. *)
Fixpoint validate_value (f : FieldInfo) (a : annotation) (v : json)
  : error_type + json :=
  match a with
  | Str => match v with JStr _ => inr v | _ => inl string_type end
  | Int =>
      match lax_int v with
      | Some n => check_bounds f n
      | None => inl int_invalid
      end
  | Bool =>
      match lax_bool v with
      | Some b => inr (JBool b)
      | None => inl bool_invalid
      end
  | Datetime =>
      match lax_datetime v with
      | Some d => inr d
      | None => inl datetime_invalid
      end
  | EmailStr =>
      match v with
      | JStr s =>
          match validate_email s with
          | Some s' => inr (JStr s')
          | None => inl email_invalid
          end
      | _ => inl string_type
      end
  | Optional b =>
      match v with
      | JNull => inr JNull
      | _ => validate_value f b v
      end
  | List_ b =>
      match v with
      | JArr xs =>
          match
            (fix items (xs : list json) : error_type + list json :=
             match xs with
             | [] => inr []
             | x :: r =>
                 match validate_value f b x, items r with
                 | inr x', inr r' => inr (x' :: r')
                 | inl t, _ => inl t
                 | _, inl t => inl t
                 end
             end) xs
          with
          | inr l => inr (JArr l)
          | inl t => inl t
          end
      | _ => inl list_type
      end
  end.

(** All fields are checked; the errors of all of them are collected. *)
Fixpoint validate_fields (fs : list (string * FieldInfo))
    (ms : list (string * json)) : list error * instance :=
  match fs with
  | [] => ([], [])
  | (name, f) :: r =>
      let '(es, vs) := validate_fields r ms in
      match assoc name ms with
      | None =>
          if is_required f
          then (mkError ["body"; name] missing :: es, vs)
          else (es, (name, get_default f) :: vs)
      | Some v =>
          match validate_value f (annotation_of f) v with
          | inl t => (mkError ["body"; name] t :: es, vs)
          | inr v' => (es, (name, v') :: vs)
          end
      end
  end.

(** Validation of a request body against a model: the instance, or the
    list of errors. *)
Definition model_validate (m : BaseModel) (body : json)
  : list error + instance :=
  match body with
  | JObj ms =>
      match validate_fields (model_fields m) ms with
      | ([], vs) => inr vs
      | (es, _) => inl es
      end
  | _ => inl [mkError ["body"] model_attributes_type]
  end.

End Validation.
End Pydantic.
Import Pydantic.

(* ===================================================================== *)
(** * schemas.py                                                          *)
(* ===================================================================== *)

Module Schemas.

(** [...] as a default: the field is required. *)
Definition Ellipsis : pyobj := PydanticUndefined.
Definition None_ : pyobj := Val JNull.

(** A bare annotation ([name: T]) and one with a plain default
    ([name: T = d]). *)
Definition bare (a : annotation) : FieldInfo :=
  mkField a Ellipsis None None None None.
Definition plain (a : annotation) (d : json) : FieldInfo :=
  mkField a (Val d) None None None None.

Definition Event : BaseModel := mkModel "Event" [
  ("title", mkField Str Ellipsis None (Some "Event title") None None);
  ("description",
     mkField (Optional Str) None_ None (Some "Event description") None None);
  ("start_time", mkField Datetime Ellipsis None (Some "Event start time") None None);
  ("end_time", mkField Datetime Ellipsis None (Some "Event end time") None None);
  ("location", mkField Str Ellipsis None (Some "Location or venue") None None);
  ("organizer", mkField (Optional Str) None_ None (Some "Organizer name") None None);
  ("capacity", mkField (Optional Int) None_ None None (Some 0) None);
  ("status",
     mkField Str (Val (JStr "published")) None
       (Some "draft | published | cancelled") None None);
  ("categories", mkField (List_ Str) PydanticUndefined (Some (JArr [])) None None None)
].

Definition Booking : BaseModel := mkModel "Booking" [
  ("event_id", mkField Str Ellipsis None (Some "Related event _id") None None);
  ("full_name", bare Str);
  ("email", bare EmailStr);
  ("phone", plain (Optional Str) JNull);
  ("ticket_quantity", mkField Int (Val (JInt 1)) None None (Some 1) (Some 10));
  ("notes", plain (Optional Str) JNull);
  ("consent_sms",
     mkField Bool (Val (JBool false)) None (Some "SMS reminders consent") None None)
].

Definition TrainingApplication : BaseModel := mkModel "TrainingApplication" [
  ("full_name", bare Str);
  ("email", bare EmailStr);
  ("phone", bare Str);
  ("age", mkField (Optional Int) None_ None None (Some 16) (Some 100));
  ("highest_qualification", plain (Optional Str) JNull);
  ("area", plain (Optional Str) JNull);
  ("motivation", plain (Optional Str) JNull);
  ("consent_sms", mkField Bool (Val (JBool false)) None None None None)
].

Definition ContactMessage : BaseModel := mkModel "ContactMessage" [
  ("name", bare Str);
  ("email", bare EmailStr);
  ("phone", plain (Optional Str) JNull);
  ("subject", bare Str);
  ("message", bare Str)
].

Definition Story : BaseModel := mkModel "Story" [
  ("title", bare Str);
  ("body", bare Str);
  ("author", plain (Optional Str) JNull);
  ("featured", plain Bool (JBool false))
].

Definition Partner : BaseModel := mkModel "Partner" [
  ("name", bare Str);
  ("logo_url", plain (Optional Str) JNull);
  ("website", plain (Optional Str) JNull);
  ("category", plain (Optional Str) JNull)
].

Definition Resource : BaseModel := mkModel "Resource" [
  ("title", bare Str);
  ("type", mkField Str Ellipsis None (Some "pdf | image | video | link") None None);
  ("url", bare Str);
  ("description", plain (Optional Str) JNull);
  ("language", mkField (Optional Str) (Val (JStr "English")) None None None None)
].

Definition SiteStat : BaseModel := mkModel "SiteStat" [
  ("label", bare Str);
  ("value", plain Int (JInt 0))
].

End Schemas.

(* ===================================================================== *)
(** * database.py: the document store adapter                             *)
(* ===================================================================== *)

Module Database.

(** A document: its fields in insertion order. *)
Abbreviation document := (list (string * json)).

(** Modelled from the spec: the database behind the adapter, which is not
    among the sources.  A database has a name and named collections of
    documents; [fault] is a lower-level failure (network, serialisation)
    that the next operation on it meets, with its message; [inserted]
    counts the documents inserted so far and numbers the next identifier. *)
Record database : Type := mkDatabase {
  name : string;
  fault : option string;
  collections : gmap string (list document);
  inserted : nat
}.

(** Modelled from the spec: what the adapter leaves open.  The store
    assigns each inserted document a unique identifier, returned to the
    caller as an opaque non-empty string; with no connection every
    operation reports unavailability with a fixed message. *)
Class Adapter : Type := {
  object_id : nat -> string;
  object_id_nonempty : forall n, object_id n <> EmptyString;
  object_id_inj : forall m n, object_id m = object_id n -> m = n;
  unavailable : string
}.

(** Modelled from the spec: the documents of a named collection of the
    database; a collection never written to is empty. *)
Definition collection (d : database) (collection_name : string)
  : list document :=
  match collections d !! collection_name with
  | Some docs => docs
  | None => []
  end.

Section Store.
Context `{!Adapter}.

(** Modelled from the spec: [insert(collectionName, record)] of section
    4.2, the [create_document] that [main.py] imports.  [db] is the
    connection made at start-up, [None] when there is none.  The record
    is appended verbatim to the named collection under a fresh
    identifier, which is returned; it fails with the unavailable state
    when there is no connection and with the store's error on a
    lower-level failure, and then stores nothing. *)
Definition create_document (collection_name : string) (data : instance)
    (db : option database) : outcome string * option database :=
  match db with
  | None => (Raise (Exception unavailable), db)
  | Some d =>
      match fault d with
      | Some msg => (Raise (Exception msg), db)
      | None =>
          let oid := object_id (inserted d) in
          let old := collection d collection_name in
          (Return oid,
           Some (mkDatabase (name d) None
                   (<[collection_name := (old ++ [("_id", JStr oid) :: data])%list]>
                      (collections d))
                   (S (inserted d))))
      end
  end.

(** Modelled from the spec: a document matches an exact-match filter when
    it has every field of the filter with the required value; the empty
    filter matches every document. *)
Definition matches (filter_dict : dict) (doc : document) : bool :=
  forallb
    (fun kv : string * json =>
       match assoc kv.1 doc with
       | Some v => json_eqb v kv.2
       | None => false
       end)
    (map_to_list filter_dict).

(** Modelled from the spec: [query(collectionName, filter, limit)] of
    section 4.2, the [get_documents] that [main.py] imports: up to [limit]
    matching documents of the collection (all of them when [limit] is
    absent), in insertion order; store failures are raised to the caller,
    which is what the [try]/[except] of every list handler is for. *)
Definition get_documents (collection_name : string) (filter_dict : dict)
    (limit : option Z) (db : option database) : outcome (list document) :=
  match db with
  | None => Raise (Exception unavailable)
  | Some d =>
      match fault d with
      | Some msg => Raise (Exception msg)
      | None =>
          let found :=
            List.filter (matches filter_dict) (collection d collection_name) in
          Return (match limit with
                  | Some n => take (Z.to_nat n) found
                  | None => found
                  end)
      end
  end.

(** Modelled from the spec: the names of the collections currently
    present, or the store's error. *)
Definition list_collection_names (d : database) : outcome (list string) :=
  match fault d with
  | Some msg => Raise (Exception msg)
  | None => Return ((map_to_list (collections d)).*1)
  end.

End Store.
End Database.
Import Database.

(* ===================================================================== *)
(** * main.py                                                             *)
(* ===================================================================== *)

Module Main.
Import Schemas.

#[export] Instance outcome_ret : MRet outcome := @Return.
#[export] Instance outcome_bind : MBind outcome :=
  fun A B k m => Py.bind m k.

(** ** Statements over the local [response] dictionary

    A statement runs on the current dictionary and either completes or
    raises; in both cases the assignments made so far stay. *)
Definition stmt : Type := dict -> option exn * dict.

Definition skip : stmt := fun r => (None, r).

(** [response[k] = e]: the right-hand side is evaluated first. *)
Definition assign (k : string) (e : outcome json) : stmt :=
  fun r =>
    match e with
    | Return v => (None, <[k := v]> r)
    | Raise x => (Some x, r)
    end.

Definition seq (s t : stmt) : stmt :=
  fun r =>
    match s r with
    | (None, r') => t r'
    | (Some x, r') => (Some x, r')
    end.

(** [try: s  except Exception as e: h e] *)
Definition try_ (s : stmt) (h : exn -> stmt) : stmt :=
  fun r =>
    match s r with
    | (None, r') => (None, r')
    | (Some x, r') => h x r'
    end.

(** A block of statements, run in order. *)
Definition block (ss : list stmt) : stmt := foldr seq skip ss.

(** The connection object as [test_database] uses it:
    [getattr(db, 'name', None)] and [db.list_collection_names()], each of
    which may raise. *)
Record connection : Type := mkConnection {
  getattr_name : outcome (option string);
  list_collection_names : outcome (list string)
}.

(** The connection to a database of the store. *)
Definition connect (d : database) : connection :=
  mkConnection (Return (Some (name d))) (Database.list_collection_names d).

(** [os.getenv(k)] is truthy *)
Definition getenv_set (environ : gmap string string) (k : string) : bool :=
  truthy (environ !! k).

(** [@app.get("/")] *)
Definition read_root : dict := {[ "message" := JStr "Ekhaya Legae API running" ]}.

(** [@app.get("/test")] *)
Definition test_database (environ : gmap string string)
    (db : option connection) : outcome dict :=
  let response : dict :=
    {[ "backend" := JStr "✅ Running";
       "database" := JStr "❌ Not Available";
       "database_url" := JNull;
       "database_name" := JNull;
       "connection_status" := JStr "Not Connected";
       "collections" := JArr [] ]} in
  let set_or_not (k : string) : json :=
    if getenv_set environ k then JStr "✅ Set" else JStr "❌ Not Set" in
  let body : stmt :=
    block [
      try_
        (match db with
         | Some db =>
             block [
               assign "database" (Return (JStr "✅ Available"));
               assign "database_url" (Return (set_or_not "DATABASE_URL"));
               assign "database_name"
                 (nm ← getattr_name db;
                  Return (JStr (match nm with
                                | Some n => if truthy_str n then n else "✅ Set"
                                | None => "✅ Set"
                                end)));
               assign "connection_status" (Return (JStr "Connected"));
               try_
                 (block [
                    assign "collections"
                      (names ← list_collection_names db;
                       Return (JArr (JStr <$> names)));
                    assign "database" (Return (JStr "✅ Connected & Working")) ])
                 (fun e =>
                    assign "database"
                      (Return (JStr ("⚠️ Connected but Error: "
                                     ++ str_prefix 80 (str e))))) ]
         | None =>
             assign "database" (Return (JStr "⚠️ Available but not initialized"))
         end)
        (fun e =>
           assign "database"
             (Return (JStr ("❌ Error: " ++ str_prefix 80 (str e)))));
      assign "database_url" (Return (set_or_not "DATABASE_URL"));
      assign "database_name" (Return (set_or_not "DATABASE_NAME")) ] in
  match body response with
  | (None, response) => Return response
  | (Some e, _) => Raise e
  end.

(** ** [/api/schema] *)

(** The dictionary [model_schema] builds for one field. *)
Record field_schema : Type := mkFieldSchema {
  fs_annotation : string;
  fs_required : bool;
  fs_default : pyobj;
  fs_description : option string
}.

(** The dictionary [model_schema] returns for one model. *)
Record schema : Type := mkSchema {
  collection_ : string;
  fields : gmap string field_schema
}.

Definition model_schema (model : BaseModel) : schema :=
  let fields :=
    foldl
      (fun (fields : gmap string field_schema) (item : string * FieldInfo) =>
         let '(name, field) := item in
         <[name := mkFieldSchema
                     (show_annotation (annotation_of field))
                     (is_required field)
                     (if is_required field then Val JNull else default field)
                     (description field)]> fields)
      ∅ (model_fields model) in
  mkSchema (lower (__name__ model)) fields.

(** [@app.get("/api/schema")] *)
Definition get_schema : gmap string schema :=
  {[ "event" := model_schema Event;
     "booking" := model_schema Booking;
     "trainingapplication" := model_schema TrainingApplication;
     "contactmessage" := model_schema ContactMessage;
     "story" := model_schema Story;
     "partner" := model_schema Partner;
     "resource" := model_schema Resource;
     "sitestat" := model_schema SiteStat ]}.

Section Handlers.
Context `{!Adapter}.

(** [{"items": items}] *)
Definition items_of (docs : list document) : json := JArr (JObj <$> docs).

(** [@app.get("/api/events")] *)
Definition list_events (limit : Z) (db : option database) : outcome dict :=
  try_except
    (items ← get_documents "event" ∅ (Some limit) db;
     Return {[ "items" := items_of items ]})
    (fun e => Return {[ "items" := JArr []; "error" := JStr (str e) ]}).

(** [@app.post("/api/bookings")] *)
Definition create_booking (booking : instance) (db : option database)
  : outcome dict * option database :=
  match create_document "booking" booking db with
  | (Return inserted_id, db) =>
      (Return {[ "id" := JStr inserted_id; "status" := JStr "ok" ]}, db)
  | (Raise e, db) => (Raise (HTTPException 503 (str e)), db)
  end.

(** [@app.get("/api/resources")]: the [query] dictionary the handler
    builds.  [if type:] holds for a string that is present and not
    empty. *)
Definition resources_query (type language : option string) : dict :=
  let query : dict := ∅ in
  let query :=
    match type with
    | Some t => if truthy type then <["type" := JStr t]> query else query
    | None => query
    end in
  let query :=
    match language with
    | Some l => if truthy language then <["language" := JStr l]> query else query
    | None => query
    end in
  query.

Definition list_resources (limit : Z) (type language : option string)
    (db : option database) : outcome dict :=
  try_except
    (let query := resources_query type language in
     items ← get_documents "resource" query (Some limit) db;
     Return {[ "items" := items_of items ]})
    (fun e => Return {[ "items" := JArr []; "error" := JStr (str e) ]}).

(** [@app.get("/api/partners")] *)
Definition list_partners (limit : Z) (db : option database) : outcome dict :=
  try_except
    (items ← get_documents "partner" ∅ (Some limit) db;
     Return {[ "items" := items_of items ]})
    (fun e => Return {[ "items" := JArr []; "error" := JStr (str e) ]}).

(** [@app.get("/api/stories")] *)
Definition list_stories (limit : Z) (db : option database) : outcome dict :=
  try_except
    (items ← get_documents "story" {[ "featured" := JBool true ]} (Some limit) db;
     Return {[ "items" := items_of items ]})
    (fun e => Return {[ "items" := JArr []; "error" := JStr (str e) ]}).

(** [@app.get("/api/stats")] *)
Definition list_stats (db : option database) : outcome dict :=
  try_except
    (items ← get_documents "sitestat" ∅ None db;
     (* Provide reasonable defaults if none exist yet *)
     let items :=
       match items with
       | [] =>
           [ [("label", JStr "Tests Conducted"); ("value", JInt 0)];
             [("label", JStr "Youth Trained"); ("value", JInt 0)];
             [("label", JStr "Communities Served"); ("value", JInt 0)];
             [("label", JStr "Lives Impacted"); ("value", JInt 0)] ]
       | _ => items
       end in
     Return {[ "items" := items_of items ]})
    (fun _ =>
       (* On DB error, still return defaults *)
       Return {[ "items" := items_of
           [ [("label", JStr "Tests Conducted"); ("value", JInt 0)];
             [("label", JStr "Youth Trained"); ("value", JInt 0)];
             [("label", JStr "Communities Served"); ("value", JInt 0)];
             [("label", JStr "Lives Impacted"); ("value", JInt 0)] ] ]}).

(** [@app.post("/api/applications")] *)
Definition submit_training_application (app_data : instance)
    (db : option database) : outcome dict * option database :=
  match create_document "trainingapplication" app_data db with
  | (Return inserted_id, db) =>
      (Return {[ "id" := JStr inserted_id; "status" := JStr "ok" ]}, db)
  | (Raise e, db) => (Raise (HTTPException 503 (str e)), db)
  end.

(** [@app.post("/api/contact")] *)
Definition submit_contact_message (msg : instance) (db : option database)
  : outcome dict * option database :=
  match create_document "contactmessage" msg db with
  | (Return inserted_id, db) =>
      (Return {[ "id" := JStr inserted_id; "status" := JStr "ok" ]}, db)
  | (Raise e, db) => (Raise (HTTPException 503 (str e)), db)
  end.

End Handlers.
End Main.

(* ===================================================================== *)
(** * The routes, as the framework serves them                            *)
(* ===================================================================== *)

Module Routes.
Import Schemas Main.

(** What the client receives.  A handler's dictionary is sent with status
    200; an [HTTPException] is sent with its status and its detail; a body
    that fails validation never reaches the handler and is answered with
    status 422 and the list of field errors; any other exception that
    leaves a handler is a status 500. *)
Inductive http_response : Type :=
  | Json (status : Z) (content : dict)
  | Unprocessable (detail : list error)
  | ServerError.

Definition status_code (r : http_response) : Z :=
  match r with
  | Json c _ => c
  | Unprocessable _ => 422
  | ServerError => 500
  end.

(** 2xx *)
Definition is_success (r : http_response) : bool :=
  (200 <=? status_code r) && (status_code r <? 300).

(** 4xx *)
Definition is_client_error (r : http_response) : bool :=
  (400 <=? status_code r) && (status_code r <? 500).

Definition respond (o : outcome dict) : http_response :=
  match o with
  | Return d => Json 200 d
  | Raise (HTTPException c d) => Json c {[ "detail" := JStr d ]}
  | Raise (Exception _) => ServerError
  end.

(** The query parameters of a list request, each present or absent. *)
Record params : Type := mkParams {
  limit : option Z;
  type_ : option string;
  language : option string
}.

Definition or_default {A} (d : A) (o : option A) : A :=
  match o with Some a => a | None => d end.

Inductive write_endpoint : Type := api_bookings | api_applications | api_contact.
Inductive list_endpoint : Type := api_events | api_resources | api_partners | api_stories.

(** The model of the request body of a write endpoint. *)
Definition body_model (ep : write_endpoint) : BaseModel :=
  match ep with
  | api_bookings => Booking
  | api_applications => TrainingApplication
  | api_contact => ContactMessage
  end.

(** The collection a write endpoint inserts into. *)
Definition target (ep : write_endpoint) : string :=
  match ep with
  | api_bookings => "booking"
  | api_applications => "trainingapplication"
  | api_contact => "contactmessage"
  end.

Section Served.
Context `{!Lax, !Adapter}.

Definition write_handler (ep : write_endpoint)
  : instance -> option database -> outcome dict * option database :=
  match ep with
  | api_bookings => create_booking
  | api_applications => submit_training_application
  | api_contact => submit_contact_message
  end.

(** A POST on a write endpoint: the body is validated against the model
    of the handler's parameter, then the handler runs. *)
Definition post (ep : write_endpoint) (body : json) (db : option database)
  : http_response * option database :=
  match model_validate (body_model ep) body with
  | inl errors => (Unprocessable errors, db)
  | inr inst =>
      let '(o, db') := write_handler ep inst db in
      (respond o, db')
  end.

(** The handler of a list endpoint, called with the defaults of its
    signature for the parameters the request leaves out. *)
Definition list_handler (ep : list_endpoint) (q : params)
    (db : option database) : outcome dict :=
  match ep with
  | api_events => list_events (or_default 10 (limit q)) db
  | api_resources =>
      list_resources (or_default 20 (limit q)) (type_ q) (language q) db
  | api_partners => list_partners (or_default 20 (limit q)) db
  | api_stories => list_stories (or_default 10 (limit q)) db
  end.

Definition get (ep : list_endpoint) (q : params) (db : option database)
  : http_response :=
  respond (list_handler ep q db).

Definition get_api_stats (db : option database) : http_response :=
  respond (list_stats db).

End Served.

Definition get_test (environ : gmap string string) (db : option database)
  : http_response :=
  respond (test_database environ (connect <$> db)).

End Routes.

(* ===================================================================== *)
(** * A runnable instance of the library parameters                       *)
(* ===================================================================== *)

Module Sample.

(** Splits an address at its first [@]. *)
Fixpoint split_at_sign (s : string) : option (string * string) :=
  match s with
  | EmptyString => None
  | String c r =>
      if Ascii.eqb c "@" then Some (EmptyString, r)
      else match split_at_sign r with
           | Some (l, d) => Some (String c l, d)
           | None => None
           end
  end.

Fixpoint has_char (c : ascii) (s : string) : bool :=
  match s with
  | EmptyString => false
  | String c' r => Ascii.eqb c c' || has_char c r
  end.

(** A plain syntax check: one [@], something before it, a dot after it. *)
Definition plain_email (s : string) : option string :=
  match split_at_sign s with
  | Some (l, d) =>
      if truthy_str l && has_char "." d && negb (has_char "@" d)
      then Some s else None
  | None => None
  end.

(** Only values that already have the JSON type of the field convert. *)
#[export] Instance lax : Lax := {|
  lax_int v := match v with JInt n => Some n | _ => None end;
  lax_bool v := match v with JBool b => Some b | _ => None end;
  lax_datetime v := match v with JStr _ => Some v | _ => None end;
  validate_email := plain_email
|}.

Fixpoint tally (n : nat) : string :=
  match n with
  | O => EmptyString
  | S k => String "|" (tally k)
  end.

(** The identifier of the [n]-th document: a mark and [n] strokes. *)
Definition stroke_id (n : nat) : string := String "#" (tally n).

(** A store with one resource of each of two types. *)
Definition library : database :=
  mkDatabase "ekhaya" None
    {[ "resource" :=
         [ [("_id", JStr "r1"); ("title", JStr "Guide"); ("type", JStr "pdf");
            ("url", JStr "/g.pdf"); ("language", JStr "English")];
           [("_id", JStr "r2"); ("title", JStr "Clip"); ("type", JStr "video");
            ("url", JStr "/c.mp4"); ("language", JStr "Zulu")] ] ]}
    2.

(** A contact message without a subject and with a malformed address. *)
Definition contact_body : list (string * json) :=
  [("name", JStr "Lerato"); ("email", JStr "lerato.example.org");
   ("message", JStr "Hello")].

(** A booking request whose notes are a list. *)
Definition booking_with_list_notes : json :=
  JObj [("event_id", JStr "e1"); ("full_name", JStr "Thabo M");
        ("email", JStr "thabo@example.org"); ("notes", JArr [])].

(** A complete contact message, and the same with a member the model
    does not declare. *)
Definition contact_ok : list (string * json) :=
  [("name", JStr "Lerato"); ("email", JStr "lerato@example.org");
   ("subject", JStr "Visit"); ("message", JStr "Hello")].

Definition contact_with_extra : list (string * json) :=
  ("is_admin", JBool true) :: contact_ok.

(** A booking for no ticket at all. *)
Definition booking_no_ticket : list (string * json) :=
  [("event_id", JStr "e1"); ("full_name", JStr "Thabo M");
   ("email", JStr "thabo@example.org"); ("ticket_quantity", JInt 0)].

(** A training application from a fifteen-year-old. *)
Definition application_too_young : list (string * json) :=
  [("full_name", JStr "Sipho"); ("email", JStr "sipho@example.org");
   ("phone", JStr "0820000000"); ("age", JInt 15)].

(** A message of 90 characters, the first of which takes two bytes. *)
Definition long_message : string :=
  "é23456789012345678901234567890123456789012345678901234567890123456789012345678901234567890".

(** A connection whose name can be read and whose listing fails with
    that message. *)
Definition failing_connection : Main.connection :=
  Main.mkConnection (Return (Some "ekhaya")) (Raise (Exception long_message)).

(** A booking request. *)
Definition booking_body : json :=
  JObj [("event_id", JStr "e1"); ("full_name", JStr "Thabo M");
        ("email", JStr "thabo@example.org")].

End Sample.

(* ===================================================================== *)
(** * The specification's own tables                                      *)
(* ===================================================================== *)

Module Spec.
Import Schemas Main Routes.

(** The fallback of [GET /api/stats], as the specification lists it:
    Tests Conducted=0, Youth Trained=0, Communities Served=0,
    Lives Impacted=0. *)
Definition stat (label : string) (value : Z) : document :=
  [("label", JStr label); ("value", JInt value)].

Definition fallback : list document :=
  [ stat "Tests Conducted" 0; stat "Youth Trained" 0;
    stat "Communities Served" 0; stat "Lives Impacted" 0 ].

(** The data model of section 3: for each collection name, the required
    and the optional fields of the entity. *)
Definition data_model : list (string * (list string * list string)) :=
  [ ("event",
       (["title"; "start_time"; "end_time"; "location"],
        ["description"; "organizer"; "capacity"; "status"; "categories"]));
    ("booking",
       (["event_id"; "full_name"; "email"],
        ["phone"; "ticket_quantity"; "notes"; "consent_sms"]));
    ("trainingapplication",
       (["full_name"; "email"; "phone"],
        ["age"; "highest_qualification"; "area"; "motivation"; "consent_sms"]));
    ("contactmessage", (["name"; "email"; "subject"; "message"], ["phone"]));
    ("story", (["title"; "body"], ["author"; "featured"]));
    ("partner", (["name"], ["logo_url"; "website"; "category"]));
    ("resource", (["title"; "type"; "url"], ["description"; "language"]));
    ("sitestat", (["label"], ["value"])) ].

(** The model class behind each collection name. *)
Definition registry : list (string * BaseModel) :=
  [ ("event", Event); ("booking", Booking);
    ("trainingapplication", TrainingApplication);
    ("contactmessage", ContactMessage); ("story", Story);
    ("partner", Partner); ("resource", Resource); ("sitestat", SiteStat) ].

(** A field has no default: neither a default value nor a factory. *)
Definition no_default (f : FieldInfo) : Prop :=
  default f = PydanticUndefined /\ default_factory f = None.

(** The answer of [GET /api/schema] agrees with a row of the data model:
    the entry of the collection is the schema of its model class, it
    lists exactly the fields of the row, flags as required exactly the
    fields the row gives as required, and a field is flagged as required
    exactly when it has no default. *)
Definition schema_agrees (row : string * (list string * list string)) : Prop :=
  let '(entity, (req, opt)) := row in
  exists model s,
    (entity, model) ∈ registry
    /\ get_schema !! entity = Some s
    /\ s = model_schema model
    /\ collection_ s = entity
    /\ dom (fields s) = list_to_set (req ++ opt)%list
    /\ (forall name fs, fields s !! name = Some fs ->
          (fs_required fs = true <-> name ∈ req))
    /\ (forall name f, (name, f) ∈ model_fields model ->
          exists fs, fields s !! name = Some fs
            /\ (fs_required fs = true <-> no_default f)).

(** The status string of [GET /test] for each way the diagnostic steps can
    go. *)
Definition database_status (db : option connection) : string :=
  match db with
  | None => "⚠️ Available but not initialized"
  | Some c =>
      match getattr_name c with
      | Raise e => "❌ Error: " ++ str_prefix 80 (str e)
      | Return _ =>
          match list_collection_names c with
          | Raise e => "⚠️ Connected but Error: " ++ str_prefix 80 (str e)
          | Return _ => "✅ Connected & Working"
          end
      end
  end.

(** The filter of [GET /api/resources] read literally: one entry for each
    of [type] and [language] that is present in the request. *)
Definition filter_of_present (type language : option string) : dict :=
  let query : dict := ∅ in
  let query :=
    match type with Some t => <["type" := JStr t]> query | None => query end in
  match language with
  | Some l => <["language" := JStr l]> query
  | None => query
  end.

(** The amended reading: one entry for each of them that is present and
    not the empty string. *)
Definition filter_of_nonempty (type language : option string) : dict :=
  let keep (o : option string) : option string :=
    match o with
    | Some s => if truthy_str s then Some s else None
    | None => None
    end in
  filter_of_present (keep type) (keep language).

Section StoreCalls.
Context `{!Adapter}.

(** The routing table of section 4.3: the store query behind each list
    endpoint. *)
Definition query_of (ep : list_endpoint) (q : params) (db : option database)
  : outcome (list document) :=
  match ep with
  | api_events => get_documents "event" ∅ (Some (or_default 10 (limit q))) db
  | api_resources =>
      get_documents "resource" (resources_query (type_ q) (language q))
        (Some (or_default 20 (limit q))) db
  | api_partners => get_documents "partner" ∅ (Some (or_default 20 (limit q))) db
  | api_stories =>
      get_documents "story" {[ "featured" := JBool true ]}
        (Some (or_default 10 (limit q))) db
  end.

End StoreCalls.

Section BookingRules.
Context `{!Lax}.

(** A declared field passes on a body: it is left out and optional, or
    present with a value that its annotation accepts. *)
Definition field_ok (ms : list (string * json)) (item : string * FieldInfo)
  : Prop :=
  match assoc item.1 ms with
  | None => is_required item.2 = false
  | Some v =>
      exists v', validate_value item.2 (annotation_of item.2) v = inr v'
  end.

(** A field that may be left out, be [null] or hold a string. *)
Definition optional_string (o : option json) : Prop :=
  o = None \/ o = Some JNull \/ exists s, o = Some (JStr s).

(** The acceptance condition of a booking body as the data-model table
    gives it: the three required fields present, the e-mail well formed,
    the ticket quantity (when present) an integer from 1 to 10. *)
Definition booking_rule_as_stated (body : json) : Prop :=
  exists ms, body = JObj ms /\
    is_Some (assoc "event_id" ms) /\
    is_Some (assoc "full_name" ms) /\
    (exists s, assoc "email" ms = Some (JStr s) /\ is_Some (validate_email s)) /\
    (assoc "ticket_quantity" ms = None \/
     exists v n, assoc "ticket_quantity" ms = Some v /\ lax_int v = Some n /\
                 1 <= n <= 10).

(** The same with the types of the fields: the required fields are
    strings, the optional strings are strings or [null], the consent flag
    (when present) is a boolean. *)
Definition booking_rule (body : json) : Prop :=
  exists ms, body = JObj ms /\
    (exists s, assoc "event_id" ms = Some (JStr s)) /\
    (exists s, assoc "full_name" ms = Some (JStr s)) /\
    (exists s, assoc "email" ms = Some (JStr s) /\ is_Some (validate_email s)) /\
    optional_string (assoc "phone" ms) /\
    (assoc "ticket_quantity" ms = None \/
     exists v n, assoc "ticket_quantity" ms = Some v /\ lax_int v = Some n /\
                 1 <= n <= 10) /\
    optional_string (assoc "notes" ms) /\
    (assoc "consent_sms" ms = None \/
     exists v b, assoc "consent_sms" ms = Some v /\ lax_bool v = Some b).

(** A malformed body of a write request, with the error it must be
    answered with: a required field of the model is missing, or the
    e-mail is a string that is not a well formed address. *)
Inductive violation (ep : write_endpoint) (ms : list (string * json))
  : error -> Prop :=
  | missing_field name f :
      (name, f) ∈ model_fields (body_model ep) ->
      is_required f = true ->
      assoc name ms = None ->
      violation ep ms (mkError ["body"; name] missing)
  | malformed_email s :
      assoc "email" ms = Some (JStr s) ->
      validate_email s = None ->
      violation ep ms (mkError ["body"; "email"] email_invalid).

End BookingRules.
End Spec.

(* ===================================================================== *)
(** * Shapes of validated records and of answers                          *)
(* ===================================================================== *)

Module Shapes.
Import Schemas Main Routes Spec.

(** The names of the required fields of a model, in declaration order. *)
Definition required_names (m : BaseModel) : list string :=
  (List.filter (fun item : string * FieldInfo => is_required item.2)
     (model_fields m)).*1.

(** The keys of the answer of [test_database]. *)
Definition diagnostic_keys : gset string :=
  {[ "backend"; "database"; "database_url"; "database_name";
     "connection_status"; "collections" ]}.

(** The [connection_status] entry of [test_database]: it is set after the
    name of the database has been read. *)
Definition connection_status_of (db : option connection) : string :=
  match db with
  | Some c =>
      match getattr_name c with
      | Return _ => "Connected"
      | Raise _ => "Not Connected"
      end
  | None => "Not Connected"
  end.

(** The [collections] entry of [test_database]: the listed names when the
    name lookup and the listing both return, and empty otherwise. *)
Definition collections_of (db : option connection) : list string :=
  match db with
  | Some c =>
      match getattr_name c, list_collection_names c with
      | Return _, Return names => names
      | _, _ => []
      end
  | None => []
  end.

(** [✅ Set] or [❌ Not Set], by an environment variable. *)
Definition set_or_not (environ : gmap string string) (k : string) : json :=
  if getenv_set environ k then JStr "✅ Set" else JStr "❌ Not Set".

(** The dictionary [model_schema] builds for a field. *)
Definition field_schema_of (f : FieldInfo) : field_schema :=
  mkFieldSchema (show_annotation (annotation_of f)) (is_required f)
    (if is_required f then Val JNull else default f) (description f).

(** One step of the loop of [model_schema]: [fields[name] = {...}]. *)
Definition schema_step (fields : gmap string field_schema)
    (item : string * FieldInfo) : gmap string field_schema :=
  let '(name, field) := item in <[name := field_schema_of field]> fields.

(** The diagnostic step that fails on a connection, if any, with the
    label [test_database] reports it under: the name lookup, else the
    listing of the collections. *)
Definition failure_of (c : connection) : option (string * exn) :=
  match getattr_name c with
  | Raise e => Some ("❌ Error: ", e)
  | Return _ =>
      match list_collection_names c with
      | Raise e => Some ("⚠️ Connected but Error: ", e)
      | Return _ => None
      end
  end.

Section Conformance.
Context `{!Lax}.

(** An integer meets the bounds a field declares. *)
Definition within (f : FieldInfo) (n : Z) : Prop :=
  (forall b, ge f = Some b -> b <= n) /\ (forall c, le f = Some c -> n <= c).

(** A value has the type of an annotation, and meets the bounds of the
    field when it is an integer. *)
Fixpoint conforms (f : FieldInfo) (a : annotation) (v : json) : Prop :=
  match a with
  | Str => exists s, v = JStr s
  | Int => exists n, v = JInt n /\ within f n
  | Bool => exists b, v = JBool b
  | Datetime => exists raw, lax_datetime raw = Some v
  | EmailStr => exists raw s, validate_email raw = Some s /\ v = JStr s
  | Optional b => v = JNull \/ conforms f b v
  | List_ b => exists l, v = JArr l /\ Forall (conforms f b) l
  end.

(** A declared default meets the annotation and the bounds of its own
    field. *)
Definition default_conforms (item : string * FieldInfo) : Prop :=
  is_required item.2 = false ->
  conforms item.2 (annotation_of item.2) (get_default item.2).

(** A validated record of a model: the declared fields in declaration
    order, each with a value that conforms to its annotation. *)
Definition record_of (m : BaseModel) (inst : instance) : Prop :=
  Forall2 (fun (item : string * FieldInfo) (kv : string * json) =>
             kv.1 = item.1 /\ conforms item.2 (annotation_of item.2) kv.2)
          (model_fields m) inst.

(** The outcome of one declared field on a body. *)
Definition field_result (ms : list (string * json))
    (item : string * FieldInfo) : error_type + json :=
  match assoc item.1 ms with
  | None => if is_required item.2 then inl missing else inr (get_default item.2)
  | Some v => validate_value item.2 (annotation_of item.2) v
  end.

(** An optional integer field: left out, [null], or an integer between
    the two bounds. *)
Definition optional_int_between (a b : Z) (o : option json) : Prop :=
  o = None \/ o = Some JNull \/
  exists v n, o = Some v /\ lax_int v = Some n /\ a <= n <= b.

(** The acceptance condition of a training application, read off the
    declarations of the model. *)
Definition training_rule (body : json) : Prop :=
  exists ms, body = JObj ms /\
    (exists s, assoc "full_name" ms = Some (JStr s)) /\
    (exists s, assoc "email" ms = Some (JStr s) /\ is_Some (validate_email s)) /\
    (exists s, assoc "phone" ms = Some (JStr s)) /\
    optional_int_between 16 100 (assoc "age" ms) /\
    optional_string (assoc "highest_qualification" ms) /\
    optional_string (assoc "area" ms) /\
    optional_string (assoc "motivation" ms) /\
    (assoc "consent_sms" ms = None \/
     exists v b, assoc "consent_sms" ms = Some v /\ lax_bool v = Some b).

(** The acceptance condition of a contact message. *)
Definition contact_rule (body : json) : Prop :=
  exists ms, body = JObj ms /\
    (exists s, assoc "name" ms = Some (JStr s)) /\
    (exists s, assoc "email" ms = Some (JStr s) /\ is_Some (validate_email s)) /\
    optional_string (assoc "phone" ms) /\
    (exists s, assoc "subject" ms = Some (JStr s)) /\
    (exists s, assoc "message" ms = Some (JStr s)).

(** [null] or a string. *)
Definition null_or_string (v : json) : Prop :=
  v = JNull \/ exists s, v = JStr s.

End Conformance.
End Shapes.

(* ===================================================================== *)
(** * Properties                                                          *)
(* ===================================================================== *)

Import Schemas Main Routes Spec Shapes.

(** ** Looking a key up in a dictionary built by assignments *)

Ltac dict_lookup :=
  repeat match goal with
    | |- context [ (<[?k := ?v]> ?m) !! ?k ] =>
        rewrite (lookup_insert_eq m k v)
    | |- context [ (<[?k := ?v]> ?m) !! ?j ] =>
        rewrite (lookup_insert_ne m k j v) by congruence
    | |- context [ {[ ?k := ?v ]} !! ?k ] =>
        rewrite (lookup_singleton_eq k v)
    | |- context [ {[ ?k := ?v ]} !! ?j ] =>
        rewrite (lookup_singleton_ne k j v) by congruence
    | |- context [ ∅ !! ?j ] =>
        rewrite (lookup_empty j)
    end.

(** ** Equality of values *)

Lemma json_eqb_sound : forall x y, json_eqb x y = true -> x = y.
Proof.
  fix IH 1.
  intros [| a | a | m e | a | xs | xs] [| b | b | m' e' | b | ys | ys];
    simpl; try discriminate; intros E.
  - reflexivity.
  - apply Bool.eqb_prop in E. now subst.
  - apply Z.eqb_eq in E. now subst.
  - apply andb_prop in E as [E1 E2].
    apply Z.eqb_eq in E1, E2. now subst.
  - apply String.eqb_eq in E. now subst.
  - f_equal. revert ys E.
    induction xs as [|x xs IHxs]; intros [|y ys] E; try discriminate; auto.
    apply andb_prop in E as [E1 E2]. f_equal; [apply IH, E1 | apply IHxs, E2].
  - f_equal. revert ys E.
    induction xs as [|[k x] xs IHxs]; intros [|[k' y] ys] E;
      try discriminate; auto.
    apply andb_prop in E as [E12 E3]. apply andb_prop in E12 as [E1 E2].
    apply String.eqb_eq in E1. subst k'.
    f_equal; [f_equal; apply IH, E2 | apply IHxs, E3].
Qed.

Lemma json_eqb_refl : forall x, json_eqb x x = true.
Proof.
  fix IH 1.
  intros [| a | a | m e | a | xs | xs]; simpl.
  - reflexivity.
  - apply Bool.eqb_reflx.
  - apply Z.eqb_refl.
  - now rewrite !Z.eqb_refl.
  - apply String.eqb_refl.
  - induction xs as [|x xs IHxs]; [reflexivity|].
    now rewrite IH, IHxs.
  - induction xs as [|[k x] xs IHxs]; [reflexivity|].
    now rewrite String.eqb_refl, IH, IHxs.
Qed.

Lemma json_eqb_eq x y : json_eqb x y = true <-> x = y.
Proof.
  split; [apply json_eqb_sound | intros ->; apply json_eqb_refl].
Qed.

(** ** The sample store adapter *)

Lemma tally_inj m n : Sample.tally m = Sample.tally n -> m = n.
Proof.
  revert n; induction m as [|m IH]; intros [|n]; simpl; try discriminate; auto.
  intros E; injection E as E; f_equal; auto.
Qed.

Lemma stroke_id_nonempty n : Sample.stroke_id n <> EmptyString.
Proof. discriminate. Qed.

Lemma stroke_id_inj m n : Sample.stroke_id m = Sample.stroke_id n -> m = n.
Proof. intros E; injection E as E; apply tally_inj, E. Qed.

#[export] Instance sample_adapter : Adapter := {|
  object_id := Sample.stroke_id;
  object_id_nonempty := stroke_id_nonempty;
  object_id_inj := stroke_id_inj;
  unavailable := "Database not available"
|}.

(** ** The list endpoints *)

Section ListEndpoints.
Context `{!Adapter}.

Lemma items_only_no_error (v : json) :
  ({[ "items" := v ]} : dict) !! "error" = None.
Proof. dict_lookup. reflexivity. Qed.

Lemma list_handler_query_of ep q db :
  list_handler ep q db =
  match query_of ep q db with
  | Return docs => Return {[ "items" := items_of docs ]}
  | Raise e => Return {[ "items" := JArr []; "error" := JStr (str e) ]}
  end.
Proof.
  destruct ep; simpl;
    unfold list_events, list_resources, list_partners, list_stories;
    match goal with |- context [get_documents ?c ?f ?l ?d] =>
      destruct (get_documents c f l d) end; reflexivity.
Qed.

Lemma get_query_of ep q db :
  get ep q db =
  match query_of ep q db with
  | Return docs => Json 200 {[ "items" := items_of docs ]}
  | Raise e => Json 200 {[ "items" := JArr []; "error" := JStr (str e) ]}
  end.
Proof.
  unfold get. rewrite list_handler_query_of.
  now destruct (query_of ep q db).
Qed.

Lemma list_stats_cases db :
  list_stats db =
  Return {[ "items" := items_of
    match get_documents "sitestat" ∅ None db with
    | Return [] => fallback
    | Return (d :: ds) => d :: ds
    | Raise _ => fallback
    end ]}.
Proof.
  unfold list_stats.
  destruct (get_documents "sitestat" ∅ None db) as [[|d ds]|e]; reflexivity.
Qed.

(** C4.  Each of the four list endpoints answers with status 200 whatever
    the store does: when the store query returns records, with
    [{items: records}] and no [error] field; when it raises, with
    [{items: [], error: message}] where the message is that of the
    exception. *)
Theorem list_endpoints_degrade ep q db :
  match query_of ep q db with
  | Return docs =>
      get ep q db = Json 200 {[ "items" := items_of docs ]}
      /\ ({[ "items" := items_of docs ]} : dict) !! "error" = None
  | Raise e =>
      get ep q db = Json 200 {[ "items" := JArr []; "error" := JStr (str e) ]}
  end.
Proof.
  rewrite get_query_of.
  destruct (query_of ep q db); auto using items_only_no_error.
Qed.

(** C3.  [GET /api/stats] answers with exactly the four zero-valued
    fallback entries when the store query returns no record and when it
    raises, and with the records of the store, unchanged, otherwise. *)
Theorem stats_fallback db :
  get_api_stats db =
  Json 200 {[ "items" := items_of
    match get_documents "sitestat" ∅ None db with
    | Return [] => fallback
    | Return (d :: ds) => d :: ds
    | Raise _ => fallback
    end ]}.
Proof.
  unfold get_api_stats. now rewrite list_stats_cases.
Qed.

(** C10.  The [items] of every answer of [GET /api/stats] is a non-empty
    list, sent with status 200: a non-empty result of the store is
    returned as it is, and every other outcome, an empty result or an
    error of the store, is replaced by the fallback list, which has four
    entries. *)
Theorem stats_items_nonempty db :
  exists items : list json,
    get_api_stats db = Json 200 {[ "items" := JArr items ]}
    /\ items <> []
    /\ match get_documents "sitestat" ∅ None db with
       | Return (d :: ds) => items = JObj <$> (d :: ds)
       | Return [] => items = JObj <$> fallback
       | Raise _ => items = JObj <$> fallback
       end
    /\ length fallback = 4%nat.
Proof.
  unfold get_api_stats. rewrite list_stats_cases.
  destruct (get_documents "sitestat" ∅ None db) as [[|d ds]|e];
    eexists; (split; [reflexivity|]);
    (split; [discriminate|]); split; reflexivity.
Qed.

(** C9.  An empty [type] or [language] parameter is treated as an absent
    one: no filter entry is made for it, and the answer is that of the
    request without the parameter. *)
Theorem resources_empty_parameter_is_absent lim ty lang db :
  resources_query (Some EmptyString) lang !! "type" = None
  /\ resources_query ty (Some EmptyString) !! "language" = None
  /\ get api_resources (mkParams lim (Some EmptyString) lang) db
     = get api_resources (mkParams lim None lang) db
  /\ get api_resources (mkParams lim ty (Some EmptyString)) db
     = get api_resources (mkParams lim ty None) db.
Proof.
  assert (Hq1 : resources_query (Some EmptyString) lang = resources_query None lang)
    by reflexivity.
  assert (Hq2 : resources_query ty (Some EmptyString) = resources_query ty None)
    by (destruct ty; reflexivity).
  split; [|split; [|split]].
  - rewrite Hq1. unfold resources_query.
    destruct lang as [l|]; cbn [truthy]; [destruct (truthy_str l)|];
      dict_lookup; reflexivity.
  - rewrite Hq2. unfold resources_query.
    destruct ty as [t|]; cbn [truthy]; [destruct (truthy_str t)|];
      dict_lookup; reflexivity.
  - unfold get; simpl. unfold list_resources. now rewrite Hq1.
  - unfold get; simpl. unfold list_resources. now rewrite Hq2.
Qed.

Lemma matches_lookup (q : dict) (doc : document) k v :
  matches q doc = true -> q !! k = Some v -> assoc k doc = Some v.
Proof.
  unfold matches. intros M L.
  rewrite forallb_forall in M.
  specialize (M (k, v)). simpl in M.
  assert (I : In (k, v) (map_to_list q))
    by (apply list_elem_of_In, elem_of_map_to_list, L).
  specialize (M I).
  destruct (assoc k doc) as [v'|]; [|discriminate].
  apply json_eqb_sound in M. now subst.
Qed.

Lemma get_documents_match coll (q : dict) lim db docs :
  get_documents coll q lim db = Return docs ->
  Forall (fun doc => matches q doc = true) docs.
Proof.
  unfold get_documents.
  destruct db as [d|]; [|discriminate].
  destruct (fault d); [discriminate|].
  intros E. injection E as <-.
  assert (F : Forall (fun doc => matches q doc = true)
                (List.filter (matches q) (collection d coll))).
  { apply List.Forall_forall. intros doc I.
    apply List.filter_In in I. tauto. }
  destruct lim; [apply Forall_take|]; exact F.
Qed.

Lemma resources_query_nonempty ty lang :
  resources_query ty lang = filter_of_nonempty ty lang.
Proof.
  unfold resources_query, filter_of_nonempty, filter_of_present.
  destruct ty as [t|], lang as [l|]; simpl;
    try destruct (truthy_str t); try destruct (truthy_str l); reflexivity.
Qed.

(** C7, amended.  The filter of [GET /api/resources] has an entry for each
    of [type] and [language] that is present and not empty, and no other
    entry; with no [limit] the store is asked for at most 20 documents;
    and every item of the answer to [?type=pdf] has the [type] ["pdf"]. *)
Theorem resources_filter ty lang lim db :
  resources_query ty lang = filter_of_nonempty ty lang
  /\ resources_query ty lang !! "type"
     = (if truthy ty then JStr <$> ty else None)
  /\ resources_query ty lang !! "language"
     = (if truthy lang then JStr <$> lang else None)
  /\ (forall k, k <> "type" -> k <> "language" ->
        resources_query ty lang !! k = None)
  /\ get api_resources (mkParams None ty lang) db
     = match get_documents "resource" (filter_of_nonempty ty lang)
               (Some 20) db with
       | Return docs => Json 200 {[ "items" := items_of docs ]}
       | Raise e => Json 200 {[ "items" := JArr []; "error" := JStr (str e) ]}
       end
  /\ exists content docs,
       get api_resources (mkParams lim (Some "pdf") lang) db = Json 200 content
       /\ content !! "items" = Some (items_of docs)
       /\ Forall (fun doc => assoc "type" doc = Some (JStr "pdf")) docs.
Proof.
  split; [apply resources_query_nonempty|].
  split; [|split; [|split; [|split]]].
  - unfold resources_query.
    destruct ty as [t|], lang as [l|];
      cbn [truthy fmap option_fmap option_map];
      try destruct (truthy_str t); try destruct (truthy_str l);
      dict_lookup; reflexivity.
  - unfold resources_query.
    destruct ty as [t|], lang as [l|];
      cbn [truthy fmap option_fmap option_map];
      try destruct (truthy_str t); try destruct (truthy_str l);
      dict_lookup; reflexivity.
  - intros k K1 K2. unfold resources_query.
    destruct ty as [t|], lang as [l|]; cbn [truthy];
      try destruct (truthy_str t); try destruct (truthy_str l);
      dict_lookup; reflexivity.
  - rewrite get_query_of. cbn [query_of type_ language limit or_default].
    now rewrite resources_query_nonempty.
  - pose proof (get_query_of api_resources
                  (mkParams lim (Some "pdf") lang) db) as D.
    destruct (query_of api_resources (mkParams lim (Some "pdf") lang) db)
      as [docs|e] eqn:Q.
    + eexists _, docs. rewrite D.
      split; [reflexivity|].
      split; [dict_lookup; reflexivity|].
      cbn [query_of type_ language limit] in Q.
      apply get_documents_match in Q.
      eapply Forall_impl; [exact Q|]. intros doc M. cbv beta in M.
      apply (matches_lookup _ _ _ _ M).
      unfold resources_query.
      destruct lang as [l|]; cbn [truthy truthy_str];
        [destruct (truthy_str l)|]; dict_lookup; reflexivity.
    + eexists _, []. rewrite D.
      split; [reflexivity|].
      split; [dict_lookup; reflexivity | constructor].
Qed.

End ListEndpoints.

(** ** The diagnostic endpoint *)

Lemma test_database_returns environ db :
  exists response : dict,
    test_database environ db = Return response
    /\ response !! "database" = Some (JStr (database_status db)).
Proof.
  unfold test_database, database_status, block.
  cbn [foldr seq try_ assign skip].
  destruct db as [[[nm|e1] [names|e2]]|];
    cbn [getattr_name list_collection_names mbind outcome_bind Py.bind
         foldr seq try_ assign skip];
    (eexists; split; [reflexivity|]); dict_lookup; reflexivity.
Qed.

(** C8.  [GET /test] answers with status 200 whatever the connection
    does: no exception leaves the handler, and a failure of the name
    lookup or of the collection listing is reported in the [database]
    entry of the answer, with the first 80 characters of its message.
    This holds in particular for the connection to any state of the
    store. *)
Theorem test_database_never_fails environ db :
  (exists response : dict,
     test_database environ db = Return response
     /\ respond (test_database environ db) = Json 200 response
     /\ response !! "database" = Some (JStr (database_status db)))
  /\ (forall store, is_success (get_test environ store) = true).
Proof.
  split.
  - destruct (test_database_returns environ db) as (response & E & D).
    exists response. rewrite E. auto.
  - intros store. unfold get_test.
    destruct (test_database_returns environ (connect <$> store))
      as (response & E & _).
    now rewrite E.
Qed.

(** ** The schema endpoint *)

Lemma is_required_no_default f : is_required f = true <-> no_default f.
Proof.
  unfold is_required, no_default.
  destruct (default f), (default_factory f); split;
    try discriminate; try tauto; intros [? ?]; discriminate.
Qed.

Lemma required_flag_of_field (model : BaseModel) name f :
  Forall (fun item : string * FieldInfo =>
            fs_required <$> (fields (model_schema model) !! item.1)
            = Some (is_required item.2))
         (model_fields model) ->
  (name, f) ∈ model_fields model ->
  exists fs, fields (model_schema model) !! name = Some fs
    /\ (fs_required fs = true <-> no_default f).
Proof.
  intros F I. rewrite Forall_forall in F.
  specialize (F _ I). cbn [fst snd] in F.
  destruct (fields (model_schema model) !! name) as [fs|]; [|discriminate].
  exists fs. split; [reflexivity|].
  injection F as ->. apply is_required_no_default.
Qed.

Ltac schema_row model :=
  exists model, (model_schema model);
  split; [repeat constructor|];
  split; [vm_compute; reflexivity|];
  split; [reflexivity|];
  split; [vm_compute; reflexivity|];
  split; [compute_done|];
  split;
  [ apply map_Forall_lookup; compute_done
  | intros name f; apply required_flag_of_field; compute_done ].

Ltac each_row :=
  lazymatch goal with
  | |- Forall _ (_ :: _) => apply List.Forall_cons; [ | each_row ]
  | |- Forall _ [] => apply List.Forall_nil
  end.

(** C6.  [GET /api/schema] has one entry for each of the eight collection
    names, and each entry lists every field of the entity in the data
    model of section 3 and no other, flagged as required exactly for the
    fields the table gives as required, which are exactly the fields with
    no default. *)
Theorem schema_lists_data_model :
  dom get_schema = list_to_set data_model.*1
  /\ Forall schema_agrees data_model.
Proof.
  split; [compute_done|].
  unfold data_model. each_row; unfold schema_agrees.
  - schema_row Event.
  - schema_row Booking.
  - schema_row TrainingApplication.
  - schema_row ContactMessage.
  - schema_row Story.
  - schema_row Partner.
  - schema_row Resource.
  - schema_row SiteStat.
Qed.

(** ** Validation of request bodies *)

Section ValidationFacts.
Context `{!Lax}.

Lemma validate_fields_passes fs ms :
  (validate_fields fs ms).1 = [] <-> Forall (field_ok ms) fs.
Proof.
  induction fs as [|[name f] r IH]; cbn [validate_fields].
  - split; [constructor | reflexivity].
  - rewrite Forall_cons, <- IH. unfold field_ok at 1. cbn [fst snd].
    destruct (validate_fields r ms) as [es vs]. cbn [fst].
    destruct (assoc name ms) as [v|].
    + destruct (validate_value f (annotation_of f) v) as [t|v']; cbn [fst].
      * split; [discriminate | intros [[v' E] _]; discriminate].
      * split; [intros ->; eauto | tauto].
    + destruct (is_required f); cbn [fst].
      * split; [discriminate | intros [E _]; discriminate].
      * tauto.
Qed.

Lemma missing_reported fs ms name f :
  (name, f) ∈ fs -> is_required f = true -> assoc name ms = None ->
  mkError ["body"; name] missing ∈ (validate_fields fs ms).1.
Proof.
  intros I R A.
  induction fs as [|[name' f'] r IH]; [now apply elem_of_nil in I|].
  cbn [validate_fields].
  apply elem_of_cons in I as [I|I].
  - injection I as <- <-. rewrite A, R.
    destruct (validate_fields r ms) as [es vs]. apply list_elem_of_here.
  - specialize (IH I).
    destruct (validate_fields r ms) as [es vs]. cbn [fst] in IH.
    destruct (assoc name' ms) as [v|].
    + destruct (validate_value f' (annotation_of f') v); cbn [fst];
        [apply list_elem_of_further|]; exact IH.
    + destruct (is_required f'); cbn [fst];
        [apply list_elem_of_further|]; exact IH.
Qed.

Lemma invalid_reported fs ms name f v t :
  (name, f) ∈ fs -> assoc name ms = Some v ->
  validate_value f (annotation_of f) v = inl t ->
  mkError ["body"; name] t ∈ (validate_fields fs ms).1.
Proof.
  intros I A V.
  induction fs as [|[name' f'] r IH]; [now apply elem_of_nil in I|].
  cbn [validate_fields].
  apply elem_of_cons in I as [I|I].
  - injection I as <- <-. rewrite A, V.
    destruct (validate_fields r ms) as [es vs]. apply list_elem_of_here.
  - specialize (IH I).
    destruct (validate_fields r ms) as [es vs]. cbn [fst] in IH.
    destruct (assoc name' ms) as [v0|].
    + destruct (validate_value f' (annotation_of f') v0); cbn [fst];
        [apply list_elem_of_further|]; exact IH.
    + destruct (is_required f'); cbn [fst];
        [apply list_elem_of_further|]; exact IH.
Qed.

Lemma model_validate_object m ms :
  model_validate m (JObj ms) =
  match (validate_fields (model_fields m) ms).1 with
  | [] => inr (validate_fields (model_fields m) ms).2
  | e :: es => inl (e :: es)
  end.
Proof.
  unfold model_validate.
  now destruct (validate_fields (model_fields m) ms) as [[|e es] vs].
Qed.

Lemma model_validate_rejects m ms e :
  e ∈ (validate_fields (model_fields m) ms).1 ->
  exists errors, model_validate m (JObj ms) = inl errors /\ e ∈ errors.
Proof.
  rewrite model_validate_object.
  destruct (validate_fields (model_fields m) ms).1 as [|e0 es] eqn:E.
  - intros I. now apply elem_of_nil in I.
  - eauto.
Qed.

Lemma assoc_skip k k' v r : k <> k' -> assoc k ((k', v) :: r) = assoc k r.
Proof.
  intros N. cbn [assoc].
  destruct (String.eqb k k') eqn:E; [|reflexivity].
  now apply String.eqb_eq in E.
Qed.

Lemma assoc_head k v r : assoc k ((k, v) :: r) = Some v.
Proof. cbn [assoc]. now rewrite String.eqb_refl. Qed.

Lemma default_taken fs ms name f :
  NoDup fs.*1 -> (name, f) ∈ fs ->
  is_required f = false -> assoc name ms = None ->
  assoc name (validate_fields fs ms).2 = Some (get_default f).
Proof.
  intros D I R A.
  induction fs as [|[name' f'] r IH]; [now apply elem_of_nil in I|].
  rewrite fmap_cons in D. apply NoDup_cons in D as [D1 D2].
  cbn [validate_fields].
  apply elem_of_cons in I as [I|I].
  - injection I as <- <-. rewrite A, R.
    destruct (validate_fields r ms) as [es vs]. apply assoc_head.
  - specialize (IH D2 I).
    assert (N : name <> name').
    { intros ->. apply D1. cbn [fst].
      now apply (list_elem_of_fmap_2 fst r (name', f)). }
    destruct (validate_fields r ms) as [es vs]. cbn [snd] in IH.
    destruct (assoc name' ms) as [v|].
    + destruct (validate_value f' (annotation_of f') v); cbn [snd];
        [|rewrite assoc_skip by exact N]; exact IH.
    + destruct (is_required f'); cbn [snd];
        [|rewrite assoc_skip by exact N]; exact IH.
Qed.

End ValidationFacts.

(** ** The write endpoints *)

Section WriteEndpoints.
Context `{!Lax, !Adapter}.

Lemma write_handler_create ep inst db :
  write_handler ep inst db =
  match create_document (target ep) inst db with
  | (Return inserted_id, db') =>
      (Return {[ "id" := JStr inserted_id; "status" := JStr "ok" ]}, db')
  | (Raise e, db') => (Raise (HTTPException 503 (str e)), db')
  end.
Proof. destruct ep; reflexivity. Qed.

Lemma create_document_id coll data db oid db' :
  create_document coll data db = (Return oid, db') -> oid <> EmptyString.
Proof.
  unfold create_document.
  destruct db as [d|]; [|discriminate].
  destruct (fault d); [discriminate|].
  intros E. injection E as <- _. apply object_id_nonempty.
Qed.

(** A failed insert stores nothing; a successful one appends the record,
    under its identifier, to the named collection and to no other. *)
Lemma create_document_effect coll data db :
  match create_document coll data db with
  | (Return oid, db') =>
      exists d d', db = Some d /\ db' = Some d' /\ fault d = None
        /\ collection d' coll
           = (collection d coll ++ [("_id", JStr oid) :: data])%list
        /\ forall other, other <> coll -> collection d' other = collection d other
  | (Raise e, db') =>
      db' = db
      /\ (db = None \/ exists d, db = Some d /\ fault d = Some (str e))
  end.
Proof.
  unfold create_document.
  destruct db as [d|]; [|split; [reflexivity | now left]].
  destruct (fault d) as [msg|] eqn:F.
  - split; [reflexivity|]. right. exists d. now rewrite F.
  - eexists d, _. split; [reflexivity|]. split; [reflexivity|].
    split; [exact F|]. unfold collection. cbn [collections].
    split.
    + now rewrite lookup_insert_eq.
    + intros other N. now rewrite lookup_insert_ne by congruence.
Qed.

(** Two inserts in a row are given different identifiers. *)
Lemma successive_ids_differ coll1 coll2 data1 data2 db db1 db2 oid1 oid2 :
  create_document coll1 data1 db = (Return oid1, db1) ->
  create_document coll2 data2 db1 = (Return oid2, db2) ->
  oid1 <> oid2.
Proof.
  unfold create_document.
  destruct db as [d|]; [|discriminate].
  destruct (fault d); [discriminate|].
  intros E1. injection E1 as <- <-. cbn [fault inserted].
  intros E2. injection E2 as <- _.
  intros E. apply object_id_inj in E. lia.
Qed.

(** C1.  On each of the three write endpoints, a body that passes
    validation is handed to the store: when the insert returns an
    identifier, the answer is status 200 with [{id, status: "ok"}] and the
    identifier is not empty; when the insert raises, the answer is status
    503 with the message of the store's exception as its detail, which is
    not a success. *)
Theorem write_endpoint_contract ep body inst db :
  model_validate (body_model ep) body = inr inst ->
  match create_document (target ep) inst db with
  | (Return oid, db') =>
      post ep body db
      = (Json 200 {[ "id" := JStr oid; "status" := JStr "ok" ]}, db')
      /\ oid <> EmptyString
  | (Raise e, db') =>
      post ep body db = (Json 503 {[ "detail" := JStr (str e) ]}, db')
      /\ is_success (post ep body db).1 = false
  end.
Proof.
  intros V. unfold post. rewrite V, write_handler_create.
  destruct (create_document (target ep) inst db) as [[oid|e] db'] eqn:E.
  - split; [reflexivity|]. eapply create_document_id, E.
  - split; reflexivity.
Qed.

Lemma email_field ep :
  ("email", Schemas.bare EmailStr) ∈ model_fields (body_model ep).
Proof. destruct ep; cbn [body_model]; repeat constructor. Qed.

(** C2.  On each of the three write endpoints, a body that lacks a
    required field of the model, or whose [email] is a string that is not
    a well formed address, is answered with status 422 and a list of
    errors that names the field; the handler does not run and the store
    is left as it was. *)
Theorem malformed_body_rejected ep ms e db :
  violation ep ms e ->
  exists errors,
    post ep (JObj ms) db = (Unprocessable errors, db)
    /\ e ∈ errors
    /\ is_client_error (Unprocessable errors) = true.
Proof.
  intros V.
  assert (I : e ∈ (validate_fields (model_fields (body_model ep)) ms).1).
  { destruct V as [name f I R A | s A E].
    - eapply missing_reported; eauto.
    - eapply invalid_reported; [apply email_field | exact A |].
      cbn [validate_value annotation_of Schemas.bare]. now rewrite E. }
  apply model_validate_rejects in I as (errors & M & I).
  exists errors. unfold post. rewrite M. auto.
Qed.

End WriteEndpoints.


(** ** The booking model *)

Section BookingModel.
Context `{!Lax}.

Lemma required_string_ok ms name f :
  is_required f = true -> annotation_of f = Str ->
  field_ok ms (name, f) <-> exists s, assoc name ms = Some (JStr s).
Proof.
  intros R A. unfold field_ok. cbn [fst snd]. rewrite R, A.
  destruct (assoc name ms) as [v|]; cbn [validate_value].
  - destruct v; split;
      try (intros [x E]; discriminate); eauto.
  - split; [discriminate | intros [s E]; discriminate].
Qed.

Lemma required_email_ok ms name f :
  is_required f = true -> annotation_of f = EmailStr ->
  field_ok ms (name, f) <->
  exists s, assoc name ms = Some (JStr s) /\ is_Some (validate_email s).
Proof.
  intros R A. unfold field_ok. cbn [fst snd]. rewrite R, A.
  destruct (assoc name ms) as [v|]; cbn [validate_value].
  - destruct v as [| b | n | m e | s | xs | xs];
      try (split; [intros [x E]; discriminate
                  | intros [x [E _]]; discriminate]).
    destruct (validate_email s) as [s'|] eqn:E.
    + split; [intros _; exists s; rewrite E; eauto | eauto].
    + split; [intros [x X]; discriminate|].
      intros [x [X [y Y]]]. injection X as <-. congruence.
  - split; [discriminate | intros [s [E _]]; discriminate].
Qed.

Lemma optional_string_ok ms name f :
  is_required f = false -> annotation_of f = Optional Str ->
  field_ok ms (name, f) <-> optional_string (assoc name ms).
Proof.
  intros R A. unfold field_ok, optional_string. cbn [fst snd]. rewrite R, A.
  destruct (assoc name ms) as [v|]; cbn [validate_value].
  - destruct v;
      try (split; [intros [x E]; discriminate
                  | intros [E | [E | [x E]]]; discriminate]);
      split; eauto.
  - split; auto.
Qed.

Lemma bounded_int_ok ms name f a b :
  is_required f = false -> annotation_of f = Int ->
  ge f = Some a -> le f = Some b ->
  field_ok ms (name, f) <->
  (assoc name ms = None \/
   exists v n, assoc name ms = Some v /\ lax_int v = Some n /\ a <= n <= b).
Proof.
  intros R A G L. unfold field_ok. cbn [fst snd]. rewrite R, A.
  destruct (assoc name ms) as [v|]; cbn [validate_value]; [|split; auto].
  unfold check_bounds. rewrite G, L.
  destruct (lax_int v) as [n|] eqn:E.
  - destruct (Z.ltb_spec n a); [|destruct (Z.ltb_spec b n)].
    + split; [intros [x X]; discriminate|].
      intros [X | (v0 & n0 & X & Y & Z)]; [discriminate|].
      injection X as <-. rewrite E in Y. injection Y as <-. lia.
    + split; [intros [x X]; discriminate|].
      intros [X | (v0 & n0 & X & Y & Z)]; [discriminate|].
      injection X as <-. rewrite E in Y. injection Y as <-. lia.
    + split; [|eauto]. intros _. right. exists v, n. repeat split; auto; lia.
  - split; [intros [x X]; discriminate|].
    intros [X | (v0 & n0 & X & Y & Z)]; [discriminate|].
    injection X as <-. congruence.
Qed.

Lemma optional_bool_ok ms name f :
  is_required f = false -> annotation_of f = Bool ->
  field_ok ms (name, f) <->
  (assoc name ms = None \/
   exists v b, assoc name ms = Some v /\ lax_bool v = Some b).
Proof.
  intros R A. unfold field_ok. cbn [fst snd]. rewrite R, A.
  destruct (assoc name ms) as [v|]; cbn [validate_value]; [|split; auto].
  destruct (lax_bool v) as [b|] eqn:E.
  - split; [|eauto]. intros _. right. exists v, b. auto.
  - split; [intros [x X]; discriminate|].
    intros [X | (v0 & b0 & X & Y)]; [discriminate|].
    injection X as <-. congruence.
Qed.

Lemma booking_fields_pass ms :
  Forall (field_ok ms) (model_fields Booking) <-> booking_rule (JObj ms).
Proof.
  unfold Booking, booking_rule. cbn [model_fields].
  rewrite !Forall_cons, Forall_nil.
  rewrite (required_string_ok ms "event_id") by reflexivity.
  rewrite (required_string_ok ms "full_name") by reflexivity.
  rewrite (required_email_ok ms "email") by reflexivity.
  rewrite (optional_string_ok ms "phone") by reflexivity.
  rewrite (bounded_int_ok ms "ticket_quantity" _ 1 10) by reflexivity.
  rewrite (optional_string_ok ms "notes") by reflexivity.
  rewrite (optional_bool_ok ms "consent_sms") by reflexivity.
  split.
  - intros (A & B & C & D & E & F & G & _). exists ms. tauto.
  - intros (ms' & X & A & B & C & D & E & F & G).
    injection X as <-. tauto.
Qed.

(** C5, amended.  A booking body is accepted exactly when it is an
    object in which [event_id] and [full_name] are strings, [email] is a
    string that is a well formed address, [phone] and [notes] are each
    left out, [null] or a string, [ticket_quantity] is left out or
    converts to an integer from 1 to 10, and [consent_sms] is left out or
    converts to a boolean; a [ticket_quantity] left out is 1 and a
    [consent_sms] left out is false in the validated record. *)
Theorem booking_validation body :
  ((exists inst, model_validate Booking body = inr inst) <-> booking_rule body)
  /\ (forall ms inst,
        body = JObj ms -> model_validate Booking body = inr inst ->
        (assoc "ticket_quantity" ms = None ->
           assoc "ticket_quantity" inst = Some (JInt 1))
        /\ (assoc "consent_sms" ms = None ->
           assoc "consent_sms" inst = Some (JBool false))).
Proof.
  split.
  - destruct body as [| b | n | m e | s | xs | ms];
      try (split; [intros [x X]; discriminate
                  | intros (ms' & X & _); discriminate]).
    rewrite <- booking_fields_pass, <- validate_fields_passes,
      model_validate_object.
    destruct (validate_fields (model_fields Booking) ms).1 as [|e es].
    + split; eauto.
    + split; [intros [x X]; discriminate | discriminate].
  - intros ms inst -> V. rewrite model_validate_object in V.
    destruct (validate_fields (model_fields Booking) ms).1 as [|e es];
      [|discriminate].
    injection V as <-.
    assert (D : NoDup (model_fields Booking).*1) by compute_done.
    split; intros A.
    + apply (default_taken _ ms "ticket_quantity"
               (mkField Int (Val (JInt 1)) None None (Some 1) (Some 10)) D);
        [repeat constructor | reflexivity | exact A].
    + apply (default_taken _ ms "consent_sms"
               (mkField Bool (Val (JBool false)) None
                  (Some "SMS reminders consent") None None) D);
        [repeat constructor | reflexivity | exact A].
Qed.

End BookingModel.

(** ** Validated records *)

Section Records.
Context `{!Lax}.

Lemma check_bounds_conforms f n v :
  check_bounds f n = inr v -> exists k, v = JInt k /\ within f k.
Proof.
  unfold check_bounds, within. intros E. exists n.
  destruct (ge f) as [b|], (le f) as [c|];
    repeat match type of E with
      | context [ ?x <? ?y ] => destruct (Z.ltb_spec x y)
      end;
    try discriminate; injection E as <-;
    (split; [reflexivity|]); split; intros k K; inversion K; subst; lia.
Qed.

Lemma validate_value_conforms f a raw v :
  validate_value f a raw = inr v -> conforms f a v.
Proof.
  revert raw v. induction a as [| | | | | b IH | b IH]; intros raw v;
    cbn [validate_value conforms].
  - destruct raw; try discriminate. intros E. injection E as <-. eauto.
  - destruct (lax_int raw); [|discriminate]. apply check_bounds_conforms.
  - destruct (lax_bool raw); [|discriminate].
    intros E. injection E as <-. eauto.
  - destruct (lax_datetime raw) eqn:D; [|discriminate].
    intros E. injection E as <-. eauto.
  - destruct raw as [| | | | s | |]; try discriminate.
    destruct (validate_email s) eqn:V; [|discriminate].
    intros E. injection E as <-. eauto.
  - destruct raw; try (intros E; right; eapply IH, E).
    intros E. injection E as <-. now left.
  - destruct raw as [| | | | | xs |]; try discriminate.
    match goal with |- match ?g xs with _ => _ end = _ -> _ =>
      set (items := g) end.
    assert (A : forall l out, items l = inr out -> Forall (conforms f b) out).
    { induction l as [|x r IHr]; intros out; cbn [items].
      - intros E. injection E as <-. constructor.
      - destruct (validate_value f b x) as [t|x'] eqn:X;
          [destruct (items r); discriminate|].
        destruct (items r) as [t|r'] eqn:R; [discriminate|].
        intros E. injection E as <-.
        constructor; [eapply IH, X | now apply IHr]. }
    destruct (items xs) as [t|out] eqn:I; [discriminate|].
    intros E. injection E as <-. exists out. split; [reflexivity|].
    eapply A, I.
Qed.

(** The validated fields are, in declaration order, the fields whose
    outcome is a value, each under its declared name. *)
Lemma validate_fields_values fs ms :
  (validate_fields fs ms).2 =
  omap (fun item : string * FieldInfo =>
          match field_result ms item with
          | inr v => Some (item.1, v)
          | inl _ => None
          end) fs.
Proof.
  induction fs as [|[name f] r IH]; [reflexivity|].
  cbn [validate_fields omap list_omap]. unfold field_result at 1. cbn [fst snd].
  destruct (validate_fields r ms) as [es vs]. cbn [snd] in IH. rewrite <- IH.
  destruct (assoc name ms) as [v|].
  - now destruct (validate_value f (annotation_of f) v).
  - now destruct (is_required f).
Qed.

Lemma validate_fields_errors fs ms :
  (validate_fields fs ms).1 =
  omap (fun item : string * FieldInfo =>
          match field_result ms item with
          | inr _ => None
          | inl t => Some (mkError ["body"; item.1] t)
          end) fs.
Proof.
  induction fs as [|[name f] r IH]; [reflexivity|].
  cbn [validate_fields omap list_omap]. unfold field_result at 1. cbn [fst snd].
  destruct (validate_fields r ms) as [es vs]. cbn [fst] in IH. rewrite <- IH.
  destruct (assoc name ms) as [v|].
  - now destruct (validate_value f (annotation_of f) v).
  - now destruct (is_required f).
Qed.

Lemma field_result_conforms ms item v :
  default_conforms item -> field_result ms item = inr v ->
  conforms item.2 (annotation_of item.2) v.
Proof.
  unfold default_conforms, field_result. intros D.
  destruct (assoc item.1 ms) as [raw|].
  - apply validate_value_conforms.
  - destruct (is_required item.2); [discriminate|].
    intros E. injection E as <-. auto.
Qed.

Lemma accepted_conforms fs ms :
  Forall default_conforms fs ->
  (validate_fields fs ms).1 = [] ->
  Forall2 (fun (item : string * FieldInfo) (kv : string * json) =>
             kv.1 = item.1 /\ conforms item.2 (annotation_of item.2) kv.2)
          fs (validate_fields fs ms).2.
Proof.
  rewrite validate_fields_errors, validate_fields_values.
  induction 1 as [|item r D _ IH]; cbn [omap list_omap]; [constructor|].
  destruct (field_result ms item) as [t|v] eqn:R; [discriminate|].
  intros E. constructor; [|exact (IH E)].
  split; [reflexivity|]. eapply field_result_conforms; eauto.
Qed.

Lemma registry_defaults_conform :
  Forall (fun entry : string * BaseModel =>
            Forall default_conforms (model_fields entry.2)) registry.
Proof.
  unfold registry. each_row; cbn [snd model_fields Event Booking
    TrainingApplication ContactMessage Story Partner Resource SiteStat];
    each_row; intros R; try discriminate R;
    cbn; eauto;
    try (eexists; split; [reflexivity|]; split; intros k K;
         inversion K; subst; lia).
Qed.

Lemma accepted_record m body inst :
  Forall default_conforms (model_fields m) ->
  model_validate m body = inr inst -> record_of m inst.
Proof.
  intros D. destruct body as [| | | | | |ms]; try discriminate.
  rewrite model_validate_object.
  destruct (validate_fields (model_fields m) ms).1 as [|e es] eqn:E;
    [|discriminate].
  intros V. injection V as <-. now apply accepted_conforms.
Qed.

(** X1.  For each of the eight models of [schemas.py], every declared
    default conforms to the annotation and the bounds of its own field,
    and a body that the model accepts gives a record with exactly the
    declared fields, in declaration order, each with a value of the
    declared type and within the declared bounds. *)
Theorem validated_record_conforms entity model :
  (entity, model) ∈ registry ->
  Forall default_conforms (model_fields model)
  /\ forall body inst, model_validate model body = inr inst -> record_of model inst.
Proof.
  intros I. pose proof registry_defaults_conform as D.
  rewrite Forall_forall in D. specialize (D _ I). cbn [snd] in D.
  split; [exact D|]. intros body inst. now apply accepted_record.
Qed.

(** X2.  An accepted booking has the seven fields of the model, in
    order: [event_id] and [full_name] are strings, [email] is a
    normalised address, [phone] and [notes] are [null] or strings,
    [ticket_quantity] is an integer from 1 to 10 and [consent_sms] is a
    boolean. *)
Theorem accepted_booking_shape body inst :
  model_validate Booking body = inr inst ->
  exists event_id full_name raw email phone n notes consent,
    inst = [("event_id", JStr event_id); ("full_name", JStr full_name);
            ("email", JStr email); ("phone", phone);
            ("ticket_quantity", JInt n); ("notes", notes);
            ("consent_sms", JBool consent)]
    /\ validate_email raw = Some email
    /\ null_or_string phone /\ 1 <= n <= 10 /\ null_or_string notes.
Proof.
  intros V. apply accepted_record in V.
  2:{ pose proof registry_defaults_conform as D. rewrite Forall_forall in D.
      apply (D ("booking", Booking)). unfold registry. repeat constructor. }
  unfold record_of in V. cbn [model_fields Booking] in V.
  repeat match type of V with
    | Forall2 _ (_ :: _) _ =>
        apply Forall2_cons_inv_l in V as ([? ?] & ? & [? ?] & V & ->)
    | Forall2 _ [] _ => apply Forall2_nil_inv_l in V as ->
    end.
  cbn [fst snd conforms annotation_of Schemas.bare Schemas.plain] in *. subst.
  repeat match goal with
    | C : exists _, _ |- _ => destruct C
    | C : _ /\ _ |- _ => destruct C
    end; subst.
  match goal with W : within _ _ |- _ => destruct W as [W1 W2] end.
  cbn [ge le] in W1, W2.
  specialize (W1 1 eq_refl). specialize (W2 10 eq_refl).
  eexists _, _, _, _, _, _, _, _. split; [reflexivity|].
  split; [eassumption|]. unfold null_or_string.
  repeat split; try lia; tauto.
Qed.

End Records.

(** ** The other request models *)

Section OtherModels.
Context `{!Lax}.

Lemma optional_int_ok ms name f a b :
  is_required f = false -> annotation_of f = Optional Int ->
  ge f = Some a -> le f = Some b ->
  field_ok ms (name, f) <-> optional_int_between a b (assoc name ms).
Proof.
  intros R A G L. unfold field_ok, optional_int_between. cbn [fst snd].
  rewrite R, A.
  destruct (assoc name ms) as [v|]; [|split; auto].
  assert (N : (exists v', validate_value f Int v = inr v') <->
              exists n, lax_int v = Some n /\ a <= n <= b).
  { cbn [validate_value]. unfold check_bounds. rewrite G, L.
    destruct (lax_int v) as [n|].
    - destruct (Z.ltb_spec n a); [|destruct (Z.ltb_spec b n)].
      + split; [intros [x X]; discriminate|].
        intros (n0 & X & Y). injection X as <-. lia.
      + split; [intros [x X]; discriminate|].
        intros (n0 & X & Y). injection X as <-. lia.
      + split; [|eauto]. intros _. exists n. split; [reflexivity | lia].
    - split; [intros [x X]; discriminate | intros (n0 & X & _); discriminate]. }
  cbn [validate_value] in *.
  destruct v;
    try (rewrite N; split;
         [ intros (k & X & Y); right; right; eexists _, k; auto
         | intros [X | [X | (v0 & k & X & Y & Z)]]; try discriminate;
           injection X as <-; exists k; auto ]).
  split; eauto.
Qed.

Lemma accepted_iff_fields_pass m body :
  (exists inst, model_validate m body = inr inst) <->
  exists ms, body = JObj ms /\ Forall (field_ok ms) (model_fields m).
Proof.
  destruct body as [| b | n | k e | s | xs | ms];
    try (split; [intros [x X]; discriminate
                | intros (ms' & X & _); discriminate]).
  rewrite model_validate_object.
  split.
  - intros [inst V]. exists ms. split; [reflexivity|].
    apply validate_fields_passes.
    now destruct (validate_fields (model_fields m) ms).1.
  - intros (ms' & X & F). injection X as <-.
    apply validate_fields_passes in F. rewrite F. eauto.
Qed.

(** X3.  A training application is accepted exactly when it is an object
    in which [full_name] and [phone] are strings, [email] is a string
    that is a well formed address, [age] is left out, [null] or converts
    to an integer from 16 to 100, the three free-text fields are left
    out, [null] or strings, and [consent_sms] is left out or converts to
    a boolean. *)
Theorem training_application_validation body :
  (exists inst, model_validate TrainingApplication body = inr inst)
  <-> training_rule body.
Proof.
  rewrite accepted_iff_fields_pass. unfold training_rule.
  split; intros (ms & -> & F); exists ms; (split; [reflexivity|]);
    revert F; unfold TrainingApplication; cbn [model_fields];
    rewrite !Forall_cons, Forall_nil;
    rewrite (required_string_ok ms "full_name") by reflexivity;
    rewrite (required_email_ok ms "email") by reflexivity;
    rewrite (required_string_ok ms "phone") by reflexivity;
    rewrite (optional_int_ok ms "age" _ 16 100) by reflexivity;
    rewrite (optional_string_ok ms "highest_qualification") by reflexivity;
    rewrite (optional_string_ok ms "area") by reflexivity;
    rewrite (optional_string_ok ms "motivation") by reflexivity;
    rewrite (optional_bool_ok ms "consent_sms") by reflexivity;
    tauto.
Qed.

(** X4.  A contact message is accepted exactly when it is an object in
    which [name], [subject] and [message] are strings, [email] is a
    string that is a well formed address, and [phone] is left out,
    [null] or a string. *)
Theorem contact_message_validation body :
  (exists inst, model_validate ContactMessage body = inr inst)
  <-> contact_rule body.
Proof.
  rewrite accepted_iff_fields_pass. unfold contact_rule.
  split; intros (ms & -> & F); exists ms; (split; [reflexivity|]);
    revert F; unfold ContactMessage; cbn [model_fields];
    rewrite !Forall_cons, Forall_nil;
    rewrite (required_string_ok ms "name") by reflexivity;
    rewrite (required_email_ok ms "email") by reflexivity;
    rewrite (optional_string_ok ms "phone") by reflexivity;
    rewrite (required_string_ok ms "subject") by reflexivity;
    rewrite (required_string_ok ms "message") by reflexivity;
    tauto.
Qed.

Lemma same_declared_same_outcome fs ms ms' :
  (forall name, name ∈ fs.*1 -> assoc name ms = assoc name ms') ->
  validate_fields fs ms = validate_fields fs ms'.
Proof.
  induction fs as [|[name f] r IH]; intros A; [reflexivity|].
  cbn [validate_fields].
  rewrite IH by (intros k K; apply A; rewrite fmap_cons; now right).
  rewrite (A name) by (rewrite fmap_cons; now left).
  reflexivity.
Qed.

Lemma validate_fields_empty fs :
  validate_fields fs [] =
  ((fun name => mkError ["body"; name] missing) <$>
     (List.filter (fun item : string * FieldInfo => is_required item.2) fs).*1,
   (fun item : string * FieldInfo => (item.1, get_default item.2)) <$>
     List.filter (fun item : string * FieldInfo => negb (is_required item.2)) fs).
Proof.
  induction fs as [|[name f] r IH]; [reflexivity|].
  cbn [validate_fields assoc List.filter fst snd]. rewrite IH.
  now destruct (is_required f).
Qed.

End OtherModels.

(** ** More on the write endpoints *)

Section MoreWrites.
Context `{!Lax, !Adapter}.

(** X5.  Members of a body that the model does not declare play no part:
    two bodies that agree on the declared fields get the same answer and
    leave the same store. *)
Theorem undeclared_members_ignored ep ms ms' db :
  (forall name, name ∈ (model_fields (body_model ep)).*1 ->
     assoc name ms = assoc name ms') ->
  post ep (JObj ms) db = post ep (JObj ms') db.
Proof.
  intros A. unfold post. rewrite !model_validate_object.
  now rewrite (same_declared_same_outcome _ ms ms' A).
Qed.

(** X6.  The empty object is answered, on each write endpoint, with
    status 422 and one [missing] error for each required field of the
    model, in declaration order, and nothing else; the store is left as
    it was. *)
Theorem empty_body_errors ep db :
  post ep (JObj []) db =
  (Unprocessable
     ((fun name => mkError ["body"; name] missing) <$>
        required_names (body_model ep)), db)
  /\ required_names (body_model ep) <> [].
Proof.
  unfold post. rewrite model_validate_object, validate_fields_empty.
  cbn [fst snd]. unfold required_names.
  destruct ep; cbn [body_model]; split; (reflexivity || discriminate).
Qed.

(** X7.  A write endpoint answers with status 200, 422 or 503 and with no
    other: 422 exactly when the body fails validation, and otherwise 200
    or 503 as the insert returns or raises. *)
Theorem write_status_codes ep body db :
  match model_validate (body_model ep) body with
  | inl _ => status_code (post ep body db).1 = 422
  | inr inst =>
      match (create_document (target ep) inst db).1 with
      | Return _ => status_code (post ep body db).1 = 200
      | Raise _ => status_code (post ep body db).1 = 503
      end
  end.
Proof.
  unfold post.
  destruct (model_validate (body_model ep) body) as [es|inst];
    [reflexivity|].
  rewrite write_handler_create.
  now destruct (create_document (target ep) inst db) as [[oid|e] db'].
Qed.

(** X8.  A booking whose [ticket_quantity] converts to an integer below 1
    or above 10 is answered with status 422 and the bound that fails,
    [greater_than_equal 1] or [less_than_equal 10], at that field; the
    store is left as it was. *)
Theorem ticket_quantity_out_of_range ms v n db :
  assoc "ticket_quantity" ms = Some v ->
  lax_int v = Some n ->
  n < 1 \/ 10 < n ->
  exists errors,
    post api_bookings (JObj ms) db = (Unprocessable errors, db)
    /\ mkError ["body"; "ticket_quantity"]
         (if n <? 1 then greater_than_equal 1 else less_than_equal 10)
       ∈ errors.
Proof.
  intros A L B.
  assert (I : mkError ["body"; "ticket_quantity"]
                (if n <? 1 then greater_than_equal 1 else less_than_equal 10)
              ∈ (validate_fields (model_fields Booking) ms).1).
  { eapply invalid_reported; [| exact A |].
    - unfold Booking. cbn [model_fields]. repeat constructor.
    - cbn [validate_value annotation_of]. rewrite L.
      unfold check_bounds. cbn [ge le].
      destruct (Z.ltb_spec n 1); [reflexivity|].
      destruct (Z.ltb_spec 10 n); [reflexivity | lia]. }
  apply model_validate_rejects in I as (errors & M & I).
  exists errors. unfold post. cbn [body_model]. now rewrite M.
Qed.

(** X9.  A training application whose [age] is not [null] and converts
    to an integer below 16 or above 100 is answered with status 422 and
    the bound that fails at that field; the store is left as it was. *)
Theorem age_out_of_range ms v n db :
  assoc "age" ms = Some v ->
  v <> JNull ->
  lax_int v = Some n ->
  n < 16 \/ 100 < n ->
  exists errors,
    post api_applications (JObj ms) db = (Unprocessable errors, db)
    /\ mkError ["body"; "age"]
         (if n <? 16 then greater_than_equal 16 else less_than_equal 100)
       ∈ errors.
Proof.
  intros A N L B.
  assert (I : mkError ["body"; "age"]
                (if n <? 16 then greater_than_equal 16 else less_than_equal 100)
              ∈ (validate_fields (model_fields TrainingApplication) ms).1).
  { eapply invalid_reported; [| exact A |].
    - unfold TrainingApplication. cbn [model_fields]. repeat constructor.
    - cbn [validate_value annotation_of].
      assert (E : validate_value
                    (mkField (Optional Int) (Val JNull) None None
                       (Some 16) (Some 100)) Int v
                  = inl (if n <? 16 then greater_than_equal 16
                         else less_than_equal 100)).
      { cbn [validate_value]. rewrite L. unfold check_bounds. cbn [ge le].
        destruct (Z.ltb_spec n 16); [reflexivity|].
        destruct (Z.ltb_spec 100 n); [reflexivity | lia]. }
      destruct v; try exact E. congruence. }
  apply model_validate_rejects in I as (errors & M & I).
  exists errors. unfold post. cbn [body_model]. now rewrite M.
Qed.

End MoreWrites.

(** ** More on the schema endpoint *)

Lemma schema_fold_other (l : list (string * FieldInfo)) acc name :
  name ∉ l.*1 -> foldl schema_step acc l !! name = acc !! name.
Proof.
  revert acc. induction l as [|[k f] r IH]; intros acc N; [reflexivity|].
  rewrite fmap_cons in N. apply not_elem_of_cons in N as [N1 N2].
  cbn [foldl]. rewrite IH by exact N2.
  unfold schema_step. cbn [fst] in N1. now rewrite lookup_insert_ne by congruence.
Qed.

Lemma schema_fold_lookup (l : list (string * FieldInfo)) acc name f :
  NoDup l.*1 -> (name, f) ∈ l ->
  foldl schema_step acc l !! name = Some (field_schema_of f).
Proof.
  revert acc. induction l as [|[k g] r IH]; intros acc D I;
    [now apply elem_of_nil in I|].
  rewrite fmap_cons in D. apply NoDup_cons in D as [D1 D2].
  cbn [foldl]. apply elem_of_cons in I as [I|I].
  - injection I as <- <-. rewrite schema_fold_other by exact D1.
    unfold schema_step. apply lookup_insert_eq.
  - now apply IH.
Qed.

(** X10.  For a model whose field names are distinct, [model_schema]
    lists each declared field under its name with its annotation, its
    required flag, its description and, as default, [None] for a
    required field and the declared default otherwise (the undefined
    marker for a field that only has a factory); it lists no other
    name. *)
Theorem model_schema_lookup (model : BaseModel) :
  NoDup (model_fields model).*1 ->
  (forall name f, (name, f) ∈ model_fields model ->
     fields (model_schema model) !! name = Some (field_schema_of f))
  /\ (forall name, name ∉ (model_fields model).*1 ->
     fields (model_schema model) !! name = None).
Proof.
  intros D. split.
  - intros name f I. exact (schema_fold_lookup _ ∅ name f D I).
  - intros name N.
    change (foldl schema_step ∅ (model_fields model) !! name = None).
    now rewrite schema_fold_other by exact N.
Qed.

(** ** More on the diagnostic endpoint *)

Lemma test_database_entries environ db :
  exists response : dict,
    test_database environ db = Return response
    /\ dom response = diagnostic_keys
    /\ response !! "backend" = Some (JStr "✅ Running")
    /\ response !! "database_url" = Some (set_or_not environ "DATABASE_URL")
    /\ response !! "database_name" = Some (set_or_not environ "DATABASE_NAME")
    /\ response !! "connection_status" = Some (JStr (connection_status_of db))
    /\ response !! "collections" = Some (JArr (JStr <$> collections_of db)).
Proof.
  unfold test_database, connection_status_of, collections_of, block.
  cbn [foldr seq try_ assign skip].
  destruct db as [[[nm|e1] [names|e2]]|];
    cbn [getattr_name list_collection_names mbind outcome_bind Py.bind
         foldr seq try_ assign skip];
    (eexists; split; [reflexivity|]);
    (split; [unfold diagnostic_keys; rewrite !dom_insert_L, dom_singleton_L;
             set_solver|]);
    repeat split; dict_lookup; reflexivity.
Qed.

(** X11.  The answer of [test_database] always has the same six keys;
    [backend] is always [✅ Running], and [database_url] and
    [database_name] only say whether the environment variables
    [DATABASE_URL] and [DATABASE_NAME] are set: what the handler reads
    from the connection, the name of the database included, never shows
    in them. *)
Theorem test_database_environment_entries environ db :
  exists response : dict,
    test_database environ db = Return response
    /\ dom response = diagnostic_keys
    /\ response !! "backend" = Some (JStr "✅ Running")
    /\ response !! "database_url" = Some (set_or_not environ "DATABASE_URL")
    /\ response !! "database_name" = Some (set_or_not environ "DATABASE_NAME").
Proof.
  destruct (test_database_entries environ db)
    as (response & E & D & B & U & N & _).
  exists response. auto.
Qed.

(** X12.  In the answer of [test_database], [connection_status] is
    [Connected] exactly when there is a connection and its name could be
    read, whether or not the collections can then be listed; [collections]
    holds the listed names when the listing returns and is empty in every
    other case. *)
Theorem test_database_connection_entries environ db :
  exists response : dict,
    test_database environ db = Return response
    /\ response !! "connection_status" = Some (JStr (connection_status_of db))
    /\ response !! "collections" = Some (JArr (JStr <$> collections_of db)).
Proof.
  destruct (test_database_entries environ db)
    as (response & E & _ & _ & _ & _ & S & C).
  exists response. auto.
Qed.

Lemma str_prefix_splits n s :
  exists rest, s = str_prefix n s ++ rest /\ starts_character rest.
Proof.
  revert n. induction s as [|c r IH]; intros n; cbn [str_prefix].
  - now exists EmptyString.
  - destruct (is_continuation c) eqn:C.
    + destruct (IH n) as (rest & E & B). exists rest.
      split; [now rewrite E at 1 | exact B].
    + destruct n as [|k].
      * exists (String c r). split; [reflexivity | exact C].
      * destruct (IH k) as (rest & E & B). exists rest.
        split; [now rewrite E at 1 | exact B].
Qed.

Lemma str_prefix_count n s :
  char_count (str_prefix n s) = Nat.min n (char_count s).
Proof.
  revert n. induction s as [|c r IH]; intros n;
    cbn [str_prefix char_count]; [lia|].
  destruct (is_continuation c) eqn:C.
  - cbn [char_count]. rewrite C. apply IH.
  - destruct n as [|k]; [reflexivity|].
    cbn [char_count]. rewrite C, IH. lia.
Qed.

Lemma str_prefix_short n s :
  (char_count s <= n)%nat -> str_prefix n s = s.
Proof.
  revert n. induction s as [|c r IH]; intros n;
    cbn [str_prefix char_count]; [reflexivity|].
  destruct (is_continuation c).
  - intros L. f_equal. now apply IH.
  - destruct n as [|k]; [lia|]. intros L. f_equal. apply IH. lia.
Qed.

(** X13.  When a diagnostic step fails, the [database] entry is the label
    of the step followed by the first 80 characters of the message of the
    exception: the message splits, at the start of a character, into the
    part reported and a rest; the part reported has 80 characters, or all
    the characters of the message when these are fewer; and a message of
    at most 80 characters is reported whole. *)
Theorem reported_message_truncated environ c label e :
  failure_of c = Some (label, e) ->
  exists (response : dict) (m rest : string),
    test_database environ (Some c) = Return response
    /\ response !! "database" = Some (JStr (label ++ m))
    /\ str e = m ++ rest
    /\ starts_character rest
    /\ char_count m = Nat.min 80 (char_count (str e))
    /\ ((char_count (str e) <= 80)%nat -> m = str e).
Proof.
  intros F.
  destruct (test_database_returns environ (Some c)) as (response & E & D).
  destruct (str_prefix_splits 80 (str e)) as (rest & S & B).
  exists response, (str_prefix 80 (str e)), rest.
  split; [exact E|]. split.
  - rewrite D. unfold failure_of in F. unfold database_status.
    destruct (getattr_name c) as [nm|e1];
      [destruct (list_collection_names c) as [names|e2]|];
      try discriminate; now injection F as <- <-.
  - split; [exact S|]. split; [exact B|].
    split; [apply str_prefix_count | apply str_prefix_short].
Qed.

(** ** More on the statistics *)

(** X14.  The answer of [GET /api/stats] never has an [error] field, also
    when the store raises: [items] is its only key. *)
Theorem stats_never_reports_error `{!Adapter} db :
  exists content : dict,
    get_api_stats db = Json 200 content
    /\ dom content = {[ "items" ]}
    /\ content !! "error" = None.
Proof.
  unfold get_api_stats. rewrite list_stats_cases.
  eexists. split; [reflexivity|].
  split; [apply dom_singleton_L | dict_lookup; reflexivity].
Qed.

(** ** Worked requests, on the sample instance *)

#[local] Existing Instance Sample.lax.

Lemma write_endpoint_contract_witness :
  post api_bookings Sample.booking_body (Some Sample.library)
  = (Json 200 {[ "id" := JStr "#||"; "status" := JStr "ok" ]},
     (create_document "booking"
        [("event_id", JStr "e1"); ("full_name", JStr "Thabo M");
         ("email", JStr "thabo@example.org"); ("phone", JNull);
         ("ticket_quantity", JInt 1); ("notes", JNull);
         ("consent_sms", JBool false)] (Some Sample.library)).2)
  /\ "#||" <> EmptyString.
Proof.
  exact (write_endpoint_contract api_bookings Sample.booking_body _
           (Some Sample.library) eq_refl).
Defined.

Lemma malformed_body_rejected_witness :
  (exists errors,
     post api_contact (JObj Sample.contact_body) (Some Sample.library)
     = (Unprocessable errors, Some Sample.library)
     /\ mkError ["body"; "subject"] missing ∈ errors
     /\ is_client_error (Unprocessable errors) = true)
  /\ (exists errors,
     post api_contact (JObj Sample.contact_body) (Some Sample.library)
     = (Unprocessable errors, Some Sample.library)
     /\ mkError ["body"; "email"] email_invalid ∈ errors
     /\ is_client_error (Unprocessable errors) = true).
Proof.
  split.
  - apply (malformed_body_rejected api_contact Sample.contact_body).
    apply (missing_field api_contact Sample.contact_body "subject"
             (Schemas.bare Str));
      [repeat constructor | reflexivity | reflexivity].
  - apply (malformed_body_rejected api_contact Sample.contact_body).
    apply (malformed_email api_contact Sample.contact_body
             "lerato.example.org"); reflexivity.
Defined.

(** C5, as stated, fails: a booking with the three required fields, a
    well formed address and no ticket quantity, whose [notes] are a list,
    meets the stated condition and is rejected. *)
Lemma booking_rule_as_stated_fails :
  ~ ((exists inst, model_validate Booking Sample.booking_with_list_notes = inr inst)
     <-> booking_rule_as_stated Sample.booking_with_list_notes).
Proof.
  intros [_ A].
  destruct A as [inst V]; [|discriminate].
  eexists. split; [reflexivity|].
  split; [eexists; reflexivity|].
  split; [eexists; reflexivity|].
  split; [|left; reflexivity].
  eexists. split; [reflexivity|]. eexists; reflexivity.
Qed.

Lemma booking_validation_witness :
  assoc "ticket_quantity"
    [("event_id", JStr "e1"); ("full_name", JStr "Thabo M");
     ("email", JStr "thabo@example.org"); ("phone", JNull);
     ("ticket_quantity", JInt 1); ("notes", JNull);
     ("consent_sms", JBool false)] = Some (JInt 1)
  /\ assoc "consent_sms"
    [("event_id", JStr "e1"); ("full_name", JStr "Thabo M");
     ("email", JStr "thabo@example.org"); ("phone", JNull);
     ("ticket_quantity", JInt 1); ("notes", JNull);
     ("consent_sms", JBool false)] = Some (JBool false).
Proof.
  destruct (proj2 (@booking_validation Sample.lax Sample.booking_body)
              [("event_id", JStr "e1"); ("full_name", JStr "Thabo M");
               ("email", JStr "thabo@example.org")]
              [("event_id", JStr "e1"); ("full_name", JStr "Thabo M");
               ("email", JStr "thabo@example.org"); ("phone", JNull);
               ("ticket_quantity", JInt 1); ("notes", JNull);
               ("consent_sms", JBool false)]
              eq_refl eq_refl)
    as [T C].
  split; [apply T | apply C]; reflexivity.
Defined.

(** C7, as stated, fails: with [?type=] the parameter is present, and the
    filter the handler builds has no entry for it. *)
Lemma filter_of_present_fails :
  resources_query (Some EmptyString) None <> filter_of_present (Some EmptyString) None.
Proof.
  intros E. apply (f_equal (fun q : dict => q !! "type")) in E.
  vm_compute in E. discriminate.
Qed.

Lemma resources_filter_witness :
  resources_query (Some "pdf") (Some EmptyString) !! "url" = None.
Proof.
  destruct (@resources_filter sample_adapter (Some "pdf") (Some EmptyString) None
              (Some Sample.library))
    as (_ & _ & _ & K & _).
  apply K; discriminate.
Defined.

(** [GET /api/resources?type=pdf] on the sample store. *)
Example resources_pdf_only :
  get api_resources (mkParams None (Some "pdf") None) (Some Sample.library)
  = Json 200 {[ "items" := items_of
      [ [("_id", JStr "r1"); ("title", JStr "Guide"); ("type", JStr "pdf");
         ("url", JStr "/g.pdf"); ("language", JStr "English")] ] ]}.
Proof. vm_compute. reflexivity. Qed.

(** With no connection a booking is answered with status 503 and the
    events are listed as empty, with an error field and status 200. *)
Example no_connection :
  post api_bookings Sample.booking_body None
  = (Json 503 {[ "detail" := JStr "Database not available" ]}, None)
  /\ get api_events (mkParams None None None) None
     = Json 200 {[ "items" := JArr [];
                   "error" := JStr "Database not available" ]}.
Proof. split; vm_compute; reflexivity. Qed.

(** [GET /api/stats] on a store without statistics, and without a store. *)
Example stats_on_sample :
  get_api_stats (Some Sample.library) = Json 200 {[ "items" := items_of fallback ]}
  /\ get_api_stats None = Json 200 {[ "items" := items_of fallback ]}.
Proof. split; vm_compute; reflexivity. Qed.

Lemma validated_record_conforms_witness :
  record_of Booking
    [("event_id", JStr "e1"); ("full_name", JStr "Thabo M");
     ("email", JStr "thabo@example.org"); ("phone", JNull);
     ("ticket_quantity", JInt 1); ("notes", JNull);
     ("consent_sms", JBool false)].
Proof.
  apply (proj2 (@validated_record_conforms Sample.lax "booking" Booking
                  ltac:(unfold registry; repeat constructor))
           Sample.booking_body).
  reflexivity.
Defined.

Lemma accepted_booking_shape_witness :
  exists event_id full_name raw email phone n notes consent,
    [("event_id", JStr "e1"); ("full_name", JStr "Thabo M");
     ("email", JStr "thabo@example.org"); ("phone", JNull);
     ("ticket_quantity", JInt 1); ("notes", JNull);
     ("consent_sms", JBool false)]
    = [("event_id", JStr event_id); ("full_name", JStr full_name);
       ("email", JStr email); ("phone", phone);
       ("ticket_quantity", JInt n); ("notes", notes);
       ("consent_sms", JBool consent)]
    /\ validate_email raw = Some email
    /\ null_or_string phone /\ 1 <= n <= 10 /\ null_or_string notes.
Proof.
  apply (@accepted_booking_shape Sample.lax Sample.booking_body).
  reflexivity.
Defined.

Lemma undeclared_members_ignored_witness :
  post api_contact (JObj Sample.contact_with_extra) (Some Sample.library)
  = post api_contact (JObj Sample.contact_ok) (Some Sample.library).
Proof.
  apply (@undeclared_members_ignored Sample.lax sample_adapter api_contact).
  intros name I. cbn [body_model ContactMessage model_fields] in I.
  rewrite !fmap_cons in I. cbn [fst] in I.
  repeat (apply elem_of_cons in I as [->|I]; [reflexivity|]).
  now apply elem_of_nil in I.
Defined.

Lemma ticket_quantity_out_of_range_witness :
  exists errors,
    post api_bookings (JObj Sample.booking_no_ticket) (Some Sample.library)
    = (Unprocessable errors, Some Sample.library)
    /\ mkError ["body"; "ticket_quantity"] (greater_than_equal 1) ∈ errors.
Proof.
  apply (@ticket_quantity_out_of_range Sample.lax sample_adapter
           Sample.booking_no_ticket (JInt 0) 0 (Some Sample.library));
    [reflexivity | reflexivity | lia].
Defined.

Lemma age_out_of_range_witness :
  exists errors,
    post api_applications (JObj Sample.application_too_young)
      (Some Sample.library)
    = (Unprocessable errors, Some Sample.library)
    /\ mkError ["body"; "age"] (greater_than_equal 16) ∈ errors.
Proof.
  apply (@age_out_of_range Sample.lax sample_adapter
           Sample.application_too_young (JInt 15) 15 (Some Sample.library));
    [reflexivity | discriminate | reflexivity | lia].
Defined.

Lemma model_schema_lookup_witness :
  fields (model_schema Event) !! "categories"
  = Some (mkFieldSchema "typing.List[str]" false PydanticUndefined None)
  /\ fields (model_schema Event) !! "venue" = None.
Proof.
  assert (D : NoDup (model_fields Event).*1) by compute_done.
  destruct (model_schema_lookup Event D) as [L N].
  split.
  - apply (L "categories"
             (mkField (List_ Str) PydanticUndefined (Some (JArr []))
                None None None)).
    unfold Event. cbn [model_fields]. repeat constructor.
  - apply N. compute_done.
Defined.

Lemma reported_message_truncated_witness :
  exists (response : dict) (m rest : string),
    test_database ∅ (Some Sample.failing_connection) = Return response
    /\ response !! "database" = Some (JStr ("⚠️ Connected but Error: " ++ m))
    /\ Sample.long_message = m ++ rest
    /\ starts_character rest
    /\ char_count m = Nat.min 80 (char_count Sample.long_message)
    /\ ((char_count Sample.long_message <= 80)%nat -> m = Sample.long_message).
Proof.
  apply (reported_message_truncated ∅ Sample.failing_connection
           "⚠️ Connected but Error: " (Exception Sample.long_message)).
  reflexivity.
Defined.

(** The cut on that message keeps its first 80 characters, which take 81
    bytes, and drops the last ten. *)
Example long_message_cut :
  char_count Sample.long_message = 90%nat
  /\ str_prefix 80 Sample.long_message
     = "é2345678901234567890123456789012345678901234567890123456789012345678901234567890"
  /\ String.length (str_prefix 80 Sample.long_message) = 81%nat.
Proof. repeat split; vm_compute; reflexivity. Qed.
